(** * Mathex: focus routing between one on-screen keyboard and many math inputs

    A shallow embedding of the three React components of the library:

    - [MathProvider] (the Coordinator): the registry of input callbacks, the
      active input id and [insertAtCursor], which routes a command;
    - [MathInput] (the Input Adapter): the mount effects and the command
      handler [handleKeyboardInsertion];
    - [MathKeyboard] (the Keyboard Surface): the button tables of
      [keyboardData] and the click handler [handleButtonClick].

    React hooks are modelled by what they store.  A [useRef] cell is a field
    that is written at once.  A [useState] cell is a committed value together
    with the queue of [SetStateAction]s handed to its setter since the last
    render; [render] drains the queue.  Calls that leave the component
    (console output, a registered callback, a context method) are recorded
    as a list of events, oldest first. *)

From stdpp Require Import gmap strings list fin_maps.

(* ===================================================================== *)
(** ** React state cells *)
(* ===================================================================== *)

Module React.

(** [SetStateAction<S> = S | ((prev: S) => S)]: what a [useState] setter
    accepts. *)
Inductive SetStateAction (S : Type) : Type :=
| Value (v : S)
| Updater (f : S → S).
Arguments Value {S} v.
Arguments Updater {S} f.

Definition applyAction {S : Type} (prev : S) (a : SetStateAction S) : S :=
  match a with
  | Value v => v
  | Updater f => f prev
  end.

(** The queued actions are applied in the order the setter was called. *)
Definition processQueue {S : Type} (committed : S) (queue : list (SetStateAction S)) : S :=
  foldl applyAction committed queue.

End React.

(* ===================================================================== *)
(** ** MathProvider *)
(* ===================================================================== *)

Module MathProvider.
Import React.

Definition DEBUG : bool := false.

Section WithCallback.

(** [InputUpdateCallback = (latex: string) => void].  A callback is a
    closure; the provider only stores it and calls it. *)
Context {InputUpdateCallback : Type}.

Inductive Event : Type :=
| ConsoleLog (line : string)
| ConsoleWarn (message : string)
| Call (updateCallback : InputUpdateCallback) (latex : string).

(** [log(component, action, data)]: prints only when [DEBUG] is set.  The
    [data] payload is not kept. *)
Definition log (component action : string) : list Event :=
  if DEBUG then [ConsoleLog ("[" +:+ component +:+ "] " +:+ action)] else [].

Record Provider : Type := mkProvider {
  (** [const [activeInputId, setActiveInputId] = useState(null)] *)
  activeInputId : option string;
  (** actions passed to [setActiveInputId] and not yet rendered *)
  activeInputIdQueue : list (SetStateAction (option string));
  (** [activeInputIdRef.current] *)
  activeInputIdRef : option string;
  (** [inputCallbacksRef.current], a [Map<string, InputUpdateCallback>] *)
  inputCallbacksRef : gmap string InputUpdateCallback;
}.

(** The provider after its first render. *)
Definition initial : Provider :=
  {| activeInputId := None;
     activeInputIdQueue := [];
     activeInputIdRef := None;
     inputCallbacksRef := ∅ |}.

Definition registerInput (id : string) (updateCallback : InputUpdateCallback)
    (p : Provider) : Provider * list Event :=
  ({| activeInputId := activeInputId p;
      activeInputIdQueue := activeInputIdQueue p;
      activeInputIdRef := activeInputIdRef p;
      inputCallbacksRef := <[id := updateCallback]> (inputCallbacksRef p) |},
   log "MathProvider" "registerInput").

(** [(current) => (current === id ? null : current)] *)
Definition clearIfCurrent (id : string) (current : option string) : option string :=
  if decide (current = Some id) then None else current.

Definition unregisterInput (id : string) (p : Provider) : Provider * list Event :=
  ({| activeInputId := activeInputId p;
      activeInputIdQueue := activeInputIdQueue p ++ [Updater (clearIfCurrent id)];
      activeInputIdRef := activeInputIdRef p;
      inputCallbacksRef := delete id (inputCallbacksRef p) |},
   log "MathProvider" "unregisterInput").

Definition setActiveInput (id : string) (p : Provider) : Provider * list Event :=
  ({| activeInputId := activeInputId p;
      activeInputIdQueue := activeInputIdQueue p ++ [Value (Some id)];
      activeInputIdRef := activeInputIdRef p;
      inputCallbacksRef := inputCallbacksRef p |},
   log "MathProvider" "setActiveInput").

(** [!currentActiveId] on a [string | null]: [null] and the empty string
    are falsy. *)
Definition falsy (v : option string) : bool :=
  match v with
  | None => true
  | Some s => String.eqb s ""
  end.

Definition insertAtCursor (latex : string) (p : Provider) : Provider * list Event :=
  let currentActiveId := activeInputIdRef p in
  let called := log "MathProvider" "insertAtCursor called" in
  if falsy currentActiveId then
    (p, called
        ++ log "MathProvider" "WARNING: No active input to insert LaTeX into"
        ++ [ConsoleWarn "No active input to insert LaTeX into"])
  else
    match currentActiveId ≫= (λ id, inputCallbacksRef p !! id) with
    | Some updateCallback =>
        (p, called
            ++ log "MathProvider" "Calling update callback for active input"
            ++ [Call updateCallback latex])
    | None =>
        (p, called
            ++ log "MathProvider" "ERROR: No callback found for activeInputId")
    end.

(** One pass through the component body: the state hook returns the
    processed queue, and [activeInputIdRef.current = activeInputId]. *)
Definition render (p : Provider) : Provider * list Event :=
  let current := processQueue (activeInputId p) (activeInputIdQueue p) in
  ({| activeInputId := current;
      activeInputIdQueue := [];
      activeInputIdRef := current;
      inputCallbacksRef := inputCallbacksRef p |},
   log "MathProvider" "rendering with contextValue").

(** What the context value and React can be asked to do, one after the
    other. *)
Inductive Op : Type :=
| RegisterInput (id : string) (updateCallback : InputUpdateCallback)
| UnregisterInput (id : string)
| SetActiveInput (id : string)
| InsertAtCursor (latex : string)
| Render.

Definition step (op : Op) (p : Provider) : Provider * list Event :=
  match op with
  | RegisterInput id cb => registerInput id cb p
  | UnregisterInput id => unregisterInput id p
  | SetActiveInput id => setActiveInput id p
  | InsertAtCursor latex => insertAtCursor latex p
  | Render => render p
  end.

Fixpoint run (ops : list Op) (p : Provider) : Provider * list Event :=
  match ops with
  | [] => (p, [])
  | op :: rest =>
      let '(p1, out1) := step op p in
      let '(p2, out2) := run rest p1 in
      (p2, out1 ++ out2)
  end.

(** The callbacks that were invoked, with their arguments. *)
Definition calls (out : list Event) : list (InputUpdateCallback * string) :=
  omap (λ e, match e with Call cb latex => Some (cb, latex) | _ => None end) out.

(** An operation that neither activates an input nor unregisters [a]. *)
Definition keepsActive (a : string) (op : Op) : Prop :=
  (∀ id, op ≠ SetActiveInput id) ∧ op ≠ UnregisterInput a.

(** An operation that leaves the entry of [id] in the registry alone. *)
Definition keepsEntry (id : string) (op : Op) : Prop :=
  (∀ h, op ≠ RegisterInput id h) ∧ op ≠ UnregisterInput id.

(** Every [setActiveInput] of [ops], run from [p], names an input that
    is in the registry when the call is made. *)
Fixpoint activatesRegistered (ops : list Op) (p : Provider) : Prop :=
  match ops with
  | [] => True
  | op :: rest =>
      match op with
      | SetActiveInput id => is_Some (inputCallbacksRef p !! id)
      | _ => True
      end
      ∧ activatesRegistered rest (step op p).1
  end.

(** The value [activeInputId] takes at the next render. *)
Definition nextActiveInputId (p : Provider) : option string :=
  processQueue (activeInputId p) (activeInputIdQueue p).

End WithCallback.

Arguments Event : clear implicits.
Arguments Provider : clear implicits.
Arguments Op : clear implicits.

End MathProvider.

(* ===================================================================== *)
(** ** MathInput *)
(* ===================================================================== *)

Module MathInput.

Definition DEBUG : bool := false.

(** A value caught by [catch (error)]; [error instanceof Error] holds for
    the first constructor only. *)
Inductive Thrown : Type :=
| ErrorObject (message : string)
| OtherValue.

Definition instanceofError (error : Thrown) : bool :=
  match error with
  | ErrorObject _ => true
  | OtherValue => false
  end.

(** What the page supplies when the component mounts. *)
Record Env : Type := mkEnv {
  (** [typeof window !== 'undefined' && window.MathQuill] *)
  mathQuillLoaded : bool;
  (** [MQ.MathField(containerRef.current, config)]: [None] when it returns
      a field, [Some e] when it throws [e].  The later calls on the field
      inside the [try] block are taken to return. *)
  mathFieldThrows : option Thrown;
  (** what [mathField.latex()] reports once the initial value is set *)
  reportedLatex : string;
  (** [Math.random().toString(36).substr(2, 9)] *)
  randomSuffix : string;
  (** [useMathContext()] is defined: the input sits under a MathProvider *)
  mathContext : bool;
}.

Record MathInputProps : Type := mkProps {
  value : option string;
  defaultValue : string;
  onChange : bool;   (** a change callback is supplied *)
  id : option string;
  disabled : bool;
  autoFocus : bool;
  readOnly : bool;
  onError : bool;    (** an error callback is supplied *)
}.

Inductive Event : Type :=
| ConsoleLog (line : string)
| ConsoleError (message : string)
| OnError (error : Thrown)
| RegisterInput (id : string)
| UnregisterInput (id : string)
| SetActiveInput (id : string)
| FieldSetLatex (latex : string)
| FieldKeystroke (key : string)
| FieldCmd (cmd : string)
| FieldWrite (latex : string)
| FieldFocus
| FieldBlur
| AddEventListener (type : string)
| SetNonInteractive
| ClearNonInteractive.

Definition log (component action : string) : list Event :=
  if DEBUG then [ConsoleLog ("[" +:+ component +:+ "] " +:+ action)] else [].

(** [id || `math-input-${...}`]: an absent or empty [id] is replaced. *)
Definition inputId (env : Env) (props : MathInputProps) : string :=
  match id props with
  | Some s => if String.eqb s "" then "math-input-" +:+ randomSuffix env else s
  | None => "math-input-" +:+ randomSuffix env
  end.

(** [isControlled ? controlledValue : uncontrolledValue] at the first
    render. *)
Definition latex (props : MathInputProps) : string :=
  match value props with
  | Some controlledValue => controlledValue
  | None => defaultValue props
  end.

(** The effect "Initialize MathQuill on mount".  The first component is
    [mathFieldRef.current !== null] afterwards. *)
Definition initializeMathQuill (env : Env) (props : MathInputProps) : bool * list Event :=
  if negb (mathQuillLoaded env) then
    (false,
     [ConsoleError "MathQuill is not loaded. Make sure to include MathQuill script in your HTML."])
  else
    match mathFieldThrows env with
    | Some error =>
        (false,
         (if onError props && instanceofError error then [OnError error] else [])
         ++ [ConsoleError "Failed to initialize MathQuill:"])
    | None =>
        (true,
         [FieldSetLatex (latex props);
          AddEventListener "focusin";
          AddEventListener "focusout"]
         ++ (if autoFocus props then [FieldFocus] else []))
    end.

(** The effect "Update MathQuill when controlled value changes
    externally", as it runs after mount. *)
Definition syncControlledValue (env : Env) (props : MathInputProps) (mathFieldRef : bool)
    : list Event :=
  match value props with
  | Some controlledValue =>
      if mathFieldRef && negb (String.eqb (reportedLatex env) controlledValue)
      then [FieldSetLatex controlledValue] else []
  | None => []
  end.

(** The effect "Register with provider on mount". *)
Definition registerWithProvider (env : Env) (props : MathInputProps) : list Event :=
  if mathContext env then
    log "MathInput" "Registering input with provider (mount)"
    ++ [RegisterInput (inputId env props)]
  else
    log "MathInput" "WARNING: No mathContext available for registration".

(** The effect "Update disabled/readonly state". *)
Definition updateDisabledState (props : MathInputProps) (mathFieldRef : bool) : list Event :=
  if mathFieldRef then
    if disabled props || readOnly props then [SetNonInteractive] else [ClearNonInteractive]
  else [].

Record Mounted : Type := mkMounted {
  mathFieldRef : bool;
  events : list Event;
}.

(** The effects of the first commit, in the order they are declared. *)
Definition mount (env : Env) (props : MathInputProps) : Mounted :=
  let '(field, out1) := initializeMathQuill env props in
  {| mathFieldRef := field;
     events := out1
               ++ syncControlledValue env props field
               ++ registerWithProvider env props
               ++ updateDisabledState props field |}.

(** The class [mathex-input--disabled] of the rendered element. *)
Definition rendersDisabled (props : MathInputProps) : bool := disabled props.

(** [handleKeyboardInsertion], the callback handed to [registerInput]. *)
Definition handleKeyboardInsertion (mathFieldRef : bool) (insertedLatex : string)
    : list Event :=
  log "MathInput" "handleKeyboardInsertion called" ++
  if negb mathFieldRef then
    log "MathInput" "ERROR: mathFieldRef.current is null, cannot insert"
  else if String.eqb insertedLatex "BACKSPACE" then
    log "MathInput" "Executing backspace keystroke" ++ [FieldKeystroke "Backspace"]
  else if String.eqb insertedLatex "ARROW_LEFT" then
    log "MathInput" "Executing Left arrow keystroke" ++ [FieldKeystroke "Left"]
  else if String.eqb insertedLatex "ARROW_RIGHT" then
    log "MathInput" "Executing Right arrow keystroke" ++ [FieldKeystroke "Right"]
  else if String.eqb insertedLatex "ENTER" then
    log "MathInput" "Executing blur (Enter)" ++ [FieldBlur]
  else if String.eqb insertedLatex "SUBSCRIPT_BLOCK" then
    log "MathInput" "Inserting subscript block with cmd()" ++ [FieldCmd "_"; FieldFocus]
  else if String.eqb insertedLatex "SUPERSCRIPT_BLOCK" then
    log "MathInput" "Inserting superscript block with cmd()" ++ [FieldCmd "^"; FieldFocus]
  else
    log "MathInput" "Writing LaTeX to MathQuill"
    ++ [FieldWrite insertedLatex]
    ++ log "MathInput" "Re-focusing MathQuill after write"
    ++ [FieldFocus].

(** [handleFocusIn], the [focusin] listener installed by the first effect. *)
Definition handleFocusIn (env : Env) (props : MathInputProps) : list Event :=
  log "MathInput" "focusin event fired" ++
  if mathContext env then
    log "MathInput" "Setting active input from focusin"
    ++ [SetActiveInput (inputId env props)]
  else
    log "MathInput" "WARNING: No mathContext available in focusin handler".

(** The engine did not come up: MathQuill is missing or building the field
    threw. *)
Definition initializationFails (env : Env) : bool :=
  negb (mathQuillLoaded env) || bool_decide (is_Some (mathFieldThrows env)).

End MathInput.

(* ===================================================================== *)
(** ** MathKeyboard *)
(* ===================================================================== *)

Module MathKeyboard.
Import React.

Definition DEBUG : bool := false.

(** *** types *)

Inductive ButtonType : Type :=
| TySymbol | TyNumber | TyOperator | TyFunction | TyAction | TyLetter | TyVariable.

Inductive ButtonStyle : Type :=
| White | GrayLight | GrayMedium | GrayDark | Blue.

Inductive ButtonSize : Type :=
| Standard | Wide | ExtraWide.

Record DualChar : Type := mkDualChar {
  primary : string;
  primaryLatex : string;
  secondary : string;
  secondaryLatex : string;
}.

Record ButtonConfig : Type := mkButton {
  display : string;
  latex : string;
  type : ButtonType;
  style : option ButtonStyle;
  size : option ButtonSize;
  description : option string;
  dualChar : option DualChar;
}.

#[global] Instance ButtonType_eq_dec : EqDecision ButtonType.
Proof. solve_decision. Defined.
#[global] Instance ButtonStyle_eq_dec : EqDecision ButtonStyle.
Proof. solve_decision. Defined.
#[global] Instance ButtonSize_eq_dec : EqDecision ButtonSize.
Proof. solve_decision. Defined.
#[global] Instance DualChar_eq_dec : EqDecision DualChar.
Proof. solve_decision. Defined.
#[global] Instance ButtonConfig_eq_dec : EqDecision ButtonConfig.
Proof. solve_decision. Defined.

(** *** keyboardData *)

Definition defaultLeftSection : list (list ButtonConfig) :=
  [
   [ mkButton "x" "x" TyVariable (Some White) None None None;
     mkButton "y" "y" TyVariable (Some White) None None None;
     mkButton "a²" "^{2}" TyOperator (Some White) None None None;
     mkButton "aᵇ" "^{}" TyOperator (Some White) None None None ];
   [ mkButton "(" "(" TySymbol (Some White) None None None;
     mkButton ")" ")" TySymbol (Some White) None None None;
     mkButton "<" "<" TyOperator (Some White) None None None;
     mkButton ">" ">" TyOperator (Some White) None None None ];
   [ mkButton "|a|" "||" TyOperator (Some White) None None None;
     mkButton "," "," TySymbol (Some White) None None None;
     mkButton "≤" "\leq " TyOperator (Some White) None None None;
     mkButton "≥" "\geq " TyOperator (Some White) None None None ];
   [ mkButton "A B C" "ABC_MODE" TyAction (Some GrayLight) None None None;
     mkButton "🔊" "SPEAK" TyAction (Some GrayLight) None None None;
     mkButton "√" "\sqrt{}" TyFunction (Some White) None None None;
     mkButton "π" "\pi " TySymbol (Some White) None None None ]
  ].

Definition defaultMiddleSection : list (list ButtonConfig) :=
  [
   [ mkButton "7" "7" TyNumber (Some GrayLight) None None None;
     mkButton "8" "8" TyNumber (Some GrayLight) None None None;
     mkButton "9" "9" TyNumber (Some GrayLight) None None None;
     mkButton "÷" "\div " TyOperator (Some White) None None None ];
   [ mkButton "4" "4" TyNumber (Some GrayLight) None None None;
     mkButton "5" "5" TyNumber (Some GrayLight) None None None;
     mkButton "6" "6" TyNumber (Some GrayLight) None None None;
     mkButton "×" "\times " TyOperator (Some White) None None None ];
   [ mkButton "1" "1" TyNumber (Some GrayLight) None None None;
     mkButton "2" "2" TyNumber (Some GrayLight) None None None;
     mkButton "3" "3" TyNumber (Some GrayLight) None None None;
     mkButton "−" "-" TyOperator (Some White) None None None ];
   [ mkButton "0" "0" TyNumber (Some GrayLight) None None None;
     mkButton "." "." TyNumber (Some GrayLight) None None None;
     mkButton "=" "=" TyOperator (Some GrayLight) None None None;
     mkButton "+" "+" TyOperator (Some White) None None None ]
  ].

Definition defaultRightSection : list (list ButtonConfig) :=
  [
   [ mkButton "functions" "FUNCTIONS" TyAction (Some GrayLight) (Some ExtraWide) None None ];
   [ mkButton "←" "ARROW_LEFT" TyAction (Some GrayLight) None None None;
     mkButton "→" "ARROW_RIGHT" TyAction (Some GrayLight) None None None ];
   [ mkButton "⌫" "BACKSPACE" TyAction (Some GrayLight) (Some ExtraWide) None None ];
   [ mkButton "↵" "ENTER" TyAction (Some Blue) (Some ExtraWide) None None ]
  ].

Definition abcKeyboardRows : list (list ButtonConfig) :=
  [
   [ mkButton "q" "q" TyLetter (Some White) None None None;
     mkButton "w" "w" TyLetter (Some White) None None None;
     mkButton "e" "e" TyLetter (Some White) None None None;
     mkButton "r" "r" TyLetter (Some White) None None None;
     mkButton "t" "t" TyLetter (Some White) None None None;
     mkButton "y" "y" TyLetter (Some White) None None None;
     mkButton "u" "u" TyLetter (Some White) None None None;
     mkButton "i" "i" TyLetter (Some White) None None None;
     mkButton "o" "o" TyLetter (Some White) None None None;
     mkButton "p" "p" TyLetter (Some White) None None None ];
   [ mkButton "a" "a" TyLetter (Some White) None None None;
     mkButton "s" "s" TyLetter (Some White) None None None;
     mkButton "d" "d" TyLetter (Some White) None None None;
     mkButton "f" "f" TyLetter (Some White) None None None;
     mkButton "g" "g" TyLetter (Some White) None None None;
     mkButton "h" "h" TyLetter (Some White) None None None;
     mkButton "j" "j" TyLetter (Some White) None None None;
     mkButton "k" "k" TyLetter (Some White) None None None;
     mkButton "l" "l" TyLetter (Some White) None None None;
     mkButton "θ" "\theta " TySymbol (Some White) None None None ];
   [ mkButton "⬆" "SHIFT" TyAction (Some GrayLight) (Some Wide) None None;
     mkButton "z" "z" TyLetter (Some White) None None None;
     mkButton "x" "x" TyLetter (Some White) None None None;
     mkButton "c" "c" TyLetter (Some White) None None None;
     mkButton "v" "v" TyLetter (Some White) None None None;
     mkButton "b" "b" TyLetter (Some White) None None None;
     mkButton "n" "n" TyLetter (Some White) None None None;
     mkButton "m" "m" TyLetter (Some White) None None None;
     mkButton "⌫" "BACKSPACE" TyAction (Some GrayLight) (Some Wide) None None ];
   [ mkButton "1 2 3" "123_MODE" TyAction (Some GrayLight) (Some Wide) None None;
     mkButton "aᵦ" "SUBSCRIPT" TyAction (Some White) None None None;
     mkButton "! %" "DUAL_EXCLAIM_PERCENT" TySymbol (Some White) None None (Some (mkDualChar "!" "!" "%" "%"));
     mkButton "[ ]" "DUAL_BRACKETS" TySymbol (Some White) None None (Some (mkDualChar "[" "[" "]" "]"));
     mkButton "{ }" "DUAL_BRACES" TySymbol (Some White) None None (Some (mkDualChar "{" "\{" "}" "\}"));
     mkButton "~ :" "DUAL_TILDE_COLON" TySymbol (Some White) None None (Some (mkDualChar "~" "\sim " ":" ":"));
     mkButton ", '" "DUAL_COMMA_QUOTE" TySymbol (Some White) None None (Some (mkDualChar "," "," "'" "'"));
     mkButton "↵" "ENTER" TyAction (Some Blue) (Some Wide) None None ]
  ].
(** [String.prototype.toUpperCase] on the ASCII range; the letter buttons,
    the only ones it is applied to, hold ASCII letters. *)
Definition toUpperCaseAscii (c : Ascii.ascii) : Ascii.ascii :=
  let n := Ascii.nat_of_ascii c in
  if (97 <=? n)%nat && (n <=? 122)%nat then Ascii.ascii_of_nat (n - 32) else c.

Fixpoint toUpperCase (s : string) : string :=
  match s with
  | EmptyString => EmptyString
  | String c rest => String (toUpperCaseAscii c) (toUpperCase rest)
  end.

Definition getUppercaseAbcKeyboard : list (list ButtonConfig) :=
  map (λ row,
    map (λ btn,
      if bool_decide (type btn = TyLetter) then
        mkButton (toUpperCase (display btn)) (toUpperCase (latex btn))
                 (type btn) (style btn) (size btn) (description btn) (dualChar btn)
      else if String.eqb (latex btn) "SUBSCRIPT" then
        mkButton "aᵇ" "SUPERSCRIPT"
                 (type btn) (style btn) (size btn) (description btn) (dualChar btn)
      else btn) row) abcKeyboardRows.

(** *** the component *)

Inductive KeyboardMode : Type :=
| Default
| Abc.

Record KeyboardState : Type := mkState {
  isVisible : bool;
  keyboardMode : KeyboardMode;
  isShiftActive : bool;
  isFunctionsOpen : bool;
}.

Definition initial (defaultVisible : bool) : KeyboardState :=
  {| isVisible := defaultVisible;
     keyboardMode := Default;
     isShiftActive := false;
     isFunctionsOpen := false |}.

(** What a handler does: calls of the state setters and of the context. *)
Inductive Effect : Type :=
| ConsoleLog (line : string)
| SetKeyboardMode (a : SetStateAction KeyboardMode)
| SetIsShiftActive (a : SetStateAction bool)
| SetIsFunctionsOpen (a : SetStateAction bool)
| InsertAtCursor (latex : string).

Definition log (component action : string) : list Effect :=
  if DEBUG then [ConsoleLog ("[" +:+ component +:+ "] " +:+ action)] else [].

(** [handleButtonClick]; [mathContext] tells whether [useMathContext()] is
    defined, [isShiftActive] is the value the callback closed over. *)
Definition handleButtonClick (mathContext : bool) (isShiftActive : bool)
    (button : ButtonConfig) : list Effect :=
  log "MathKeyboard" "handleButtonClick" ++
  match dualChar button with
  | Some dc =>
      let activeLatex := if isShiftActive then secondaryLatex dc else primaryLatex dc in
      log "MathKeyboard" "dual-char button" ++
      if String.eqb activeLatex "SUBSCRIPT" then
        if mathContext then [InsertAtCursor "SUBSCRIPT_BLOCK"] else []
      else if String.eqb activeLatex "SUPERSCRIPT" then
        if mathContext then [InsertAtCursor "SUPERSCRIPT_BLOCK"] else []
      else if mathContext then
        log "MathKeyboard" "inserting activeLatex via context" ++ [InsertAtCursor activeLatex]
      else
        log "MathKeyboard" "WARNING: No mathContext for dual-char insertion"
  | None =>
      if String.eqb (latex button) "ABC_MODE" then
        [SetKeyboardMode (Value Abc); SetIsFunctionsOpen (Value false)]
      else if String.eqb (latex button) "123_MODE" then
        [SetKeyboardMode (Value Default); SetIsShiftActive (Value false)]
      else if String.eqb (latex button) "SHIFT" then
        [SetIsShiftActive (Updater negb)]
      else if String.eqb (latex button) "SUBSCRIPT" then
        if mathContext then [InsertAtCursor "SUBSCRIPT_BLOCK"] else []
      else if String.eqb (latex button) "SUPERSCRIPT" then
        if mathContext then [InsertAtCursor "SUPERSCRIPT_BLOCK"] else []
      else if String.eqb (latex button) "FUNCTIONS" then
        [SetIsFunctionsOpen (Updater negb)]
      else if String.eqb (latex button) "SPEAK" then
        []
      else if String.eqb (latex button) "ARROW_LEFT" then
        log "MathKeyboard" "ARROW_LEFT - sending via context" ++
        if mathContext then [InsertAtCursor "ARROW_LEFT"] else []
      else if String.eqb (latex button) "ARROW_RIGHT" then
        log "MathKeyboard" "ARROW_RIGHT - sending via context" ++
        if mathContext then [InsertAtCursor "ARROW_RIGHT"] else []
      else if String.eqb (latex button) "BACKSPACE" then
        log "MathKeyboard" "BACKSPACE - sending via context" ++
        if mathContext then [InsertAtCursor "BACKSPACE"] else []
      else if String.eqb (latex button) "ENTER" then
        log "MathKeyboard" "ENTER - sending blur command" ++
        if mathContext then [InsertAtCursor "ENTER"] else []
      else
        (if mathContext then
           log "MathKeyboard" "inserting standard latex via context"
           ++ [InsertAtCursor (latex button)]
         else
           log "MathKeyboard" "WARNING: No mathContext for standard insertion")
        ++
        (if bool_decide (type button = TyLetter) && isShiftActive then
           [SetIsShiftActive (Value false)]
         else [])
  end.

(** [handleFunctionClick]: a function of the panel is inserted and the
    panel closes. *)
Definition handleFunctionClick (mathContext : bool) (latex : string) : list Effect :=
  log "MathKeyboard" "handleFunctionClick" ++
  (if mathContext then [InsertAtCursor latex]
   else log "MathKeyboard" "WARNING: No mathContext for function insertion")
  ++ [SetIsFunctionsOpen (Value false)].

(** The state after the re-render that follows a handler: every setter
    call is applied to its own cell, in call order. *)
Definition applyEffect (st : KeyboardState) (e : Effect) : KeyboardState :=
  match e with
  | SetKeyboardMode a =>
      mkState (isVisible st) (applyAction (keyboardMode st) a)
              (isShiftActive st) (isFunctionsOpen st)
  | SetIsShiftActive a =>
      mkState (isVisible st) (keyboardMode st)
              (applyAction (isShiftActive st) a) (isFunctionsOpen st)
  | SetIsFunctionsOpen a =>
      mkState (isVisible st) (keyboardMode st)
              (isShiftActive st) (applyAction (isFunctionsOpen st) a)
  | ConsoleLog _ | InsertAtCursor _ => st
  end.

Definition commit (out : list Effect) (st : KeyboardState) : KeyboardState :=
  foldl applyEffect st out.

(** The commands handed to [mathContext.insertAtCursor], in order. *)
Definition dispatched (out : list Effect) : list string :=
  omap (λ e, match e with InsertAtCursor l => Some l | _ => None end) out.

(** A click on [button] in state [st]: the keyboard state afterwards and
    what was sent to the provider. *)
Definition click (mathContext : bool) (st : KeyboardState) (button : ButtonConfig)
    : KeyboardState * list string :=
  let out := handleButtonClick mathContext (isShiftActive st) button in
  (commit out st, dispatched out).

(** The buttons on screen: [renderDefaultKeyboard] or [renderAbcKeyboard]. *)
Definition renderedButtons (st : KeyboardState) : list ButtonConfig :=
  if isVisible st then
    match keyboardMode st with
    | Default => concat (defaultLeftSection ++ defaultMiddleSection ++ defaultRightSection)
    | Abc => concat (if isShiftActive st then getUppercaseAbcKeyboard else abcKeyboardRows)
    end
  else [].

(** Every button some state renders. *)
Definition allButtons : list ButtonConfig :=
  concat (defaultLeftSection ++ defaultMiddleSection ++ defaultRightSection
          ++ abcKeyboardRows ++ getUppercaseAbcKeyboard).

#[global] Instance KeyboardMode_eq_dec : EqDecision KeyboardMode.
Proof. solve_decision. Defined.
#[global] Instance KeyboardState_eq_dec : EqDecision KeyboardState.
Proof. solve_decision. Defined.

(** Every value of the four state cells. *)
Definition allStates : list KeyboardState :=
  v ← [true; false]; m ← [Default; Abc]; s ← [true; false]; f ← [true; false];
  [mkState v m s f].

(** The buttons the keyboard keeps to itself, as the specification lists
    them: the two mode switches, shift and the functions panel. *)
Definition localActions : list string := ["ABC_MODE"; "123_MODE"; "SHIFT"; "FUNCTIONS"].

End MathKeyboard.

(* ===================================================================== *)
(** ** keyboardData: the functions panel *)
(* ===================================================================== *)

Module FunctionCatalog.

Record FunctionConfig : Type := mkFunction {
  display : string;
  latex : string;
  description : option string;
}.

Record FunctionCategory : Type := mkCategory {
  id : string;
  name : string;
  functions : list FunctionConfig;
}.

Definition functionCategories : list FunctionCategory :=
  [
    mkCategory "trig" "TRIG FUNCTIONS"
      [ mkFunction "sin" "\sin()" (Some "Sine function");
        mkFunction "cos" "\cos()" (Some "Cosine function");
        mkFunction "tan" "\tan()" (Some "Tangent function");
        mkFunction "csc" "\csc()" (Some "Cosecant function");
        mkFunction "sec" "\sec()" (Some "Secant function");
        mkFunction "cot" "\cot()" (Some "Cotangent function") ];
    mkCategory "inverse-trig" "INVERSE TRIG FUNCTIONS"
      [ mkFunction "sin⁻¹" "\sin^{-1}()" (Some "Inverse sine");
        mkFunction "cos⁻¹" "\cos^{-1}()" (Some "Inverse cosine");
        mkFunction "tan⁻¹" "\tan^{-1}()" (Some "Inverse tangent");
        mkFunction "csc⁻¹" "\csc^{-1}()" (Some "Inverse cosecant");
        mkFunction "sec⁻¹" "\sec^{-1}()" (Some "Inverse secant");
        mkFunction "cot⁻¹" "\cot^{-1}()" (Some "Inverse cotangent") ];
    mkCategory "statistics" "STATISTICS"
      [ mkFunction "mean" "\text{mean}()" (Some "Mean/average");
        mkFunction "median" "\text{median}()" (Some "Median value");
        mkFunction "min" "\min()" (Some "Minimum value");
        mkFunction "max" "\max()" (Some "Maximum value");
        mkFunction "quartile" "\text{quartile}()" (Some "Quartile");
        mkFunction "quantile" "\text{quantile}()" (Some "Quantile");
        mkFunction "stdev" "\text{stdev}()" (Some "Standard deviation");
        mkFunction "stdevp" "\text{stdevp}()" (Some "Population std dev");
        mkFunction "var" "\text{var}()" (Some "Variance");
        mkFunction "varp" "\text{varp}()" (Some "Population variance");
        mkFunction "cov" "\text{cov}()" (Some "Covariance");
        mkFunction "covp" "\text{covp}()" (Some "Population covariance");
        mkFunction "mad" "\text{mad}()" (Some "Mean absolute deviation");
        mkFunction "corr" "\text{corr}()" (Some "Correlation");
        mkFunction "spearman" "\text{spearman}()" (Some "Spearman correlation");
        mkFunction "stats" "\text{stats}()" (Some "Statistics summary");
        mkFunction "count" "\text{count}()" (Some "Count");
        mkFunction "total" "\text{total}()" (Some "Total/sum") ];
    mkCategory "list-operations" "LIST OPERATIONS"
      [ mkFunction "repeat" "\text{repeat}()" (Some "Repeat elements");
        mkFunction "join" "\text{join}()" (Some "Join lists");
        mkFunction "sort" "\text{sort}()" (Some "Sort list");
        mkFunction "shuffle" "\text{shuffle}()" (Some "Shuffle list");
        mkFunction "unique" "\text{unique}()" (Some "Unique elements");
        mkFunction "for" "\text{for}" (Some "For loop") ];
    mkCategory "visualizations" "VISUALIZATIONS"
      [ mkFunction "histogram" "\text{histogram}()" (Some "Histogram");
        mkFunction "dotplot" "\text{dotplot}()" (Some "Dot plot");
        mkFunction "boxplot" "\text{boxplot}()" (Some "Box plot") ];
    mkCategory "distributions" "PROBABILITY DISTRIBUTIONS"
      [ mkFunction "normaldist" "\text{normaldist}()" (Some "Normal distribution");
        mkFunction "tdist" "\text{tdist}()" (Some "T distribution");
        mkFunction "chisqdist" "\text{chisqdist}()" (Some "Chi-squared distribution");
        mkFunction "uniformdist" "\text{uniformdist}()" (Some "Uniform distribution");
        mkFunction "binomialdist" "\text{binomialdist}()" (Some "Binomial distribution");
        mkFunction "poissondist" "\text{poissondist}()" (Some "Poisson distribution");
        mkFunction "geodist" "\text{geodist}()" (Some "Geometric distribution");
        mkFunction "pdf" "\text{pdf}()" (Some "Probability density function");
        mkFunction "cdf" "\text{cdf}()" (Some "Cumulative distribution function");
        mkFunction "inversecdf" "\text{inversecdf}()" (Some "Inverse CDF");
        mkFunction "random" "\text{random}()" (Some "Random number") ];
    mkCategory "inference" "INFERENCE"
      [ mkFunction "ztest" "\text{ztest}()" (Some "Z-test");
        mkFunction "ttest" "\text{ttest}()" (Some "T-test");
        mkFunction "zproptest" "\text{zproptest}()" (Some "Z proportion test");
        mkFunction "chisqtest" "\text{chisqtest}()" (Some "Chi-squared test");
        mkFunction "chisqgof" "\text{chisqgof}()" (Some "Chi-squared goodness of fit");
        mkFunction "null" "\text{null}()" (Some "Null hypothesis");
        mkFunction "p" "\text{p}()" (Some "P-value");
        mkFunction "pleft" "\text{pleft}()" (Some "Left p-value");
        mkFunction "pright" "\text{pright}()" (Some "Right p-value");
        mkFunction "score" "\text{score}()" (Some "Test score");
        mkFunction "dof" "\text{dof}()" (Some "Degrees of freedom");
        mkFunction "stderr" "\text{stderr}()" (Some "Standard error");
        mkFunction "conf" "\text{conf}()" (Some "Confidence interval");
        mkFunction "lower" "\text{lower}()" (Some "Lower bound");
        mkFunction "upper" "\text{upper}()" (Some "Upper bound");
        mkFunction "estimate" "\text{estimate}()" (Some "Point estimate") ];
    mkCategory "calculus" "CALCULUS"
      [ mkFunction "exp" "e^{" (Some "Exponential");
        mkFunction "ln" "\ln()" (Some "Natural logarithm");
        mkFunction "log" "\log()" (Some "Logarithm base 10");
        mkFunction "logₐ" "\log_{}()" (Some "Logarithm base a");
        mkFunction "d/dx" "\frac{d}{dx}" (Some "Derivative");
        mkFunction "f'" "'" (Some "Prime notation");
        mkFunction "∫" "\int_{}^{}" (Some "Integral");
        mkFunction "Σ" "\sum_{}^{}" (Some "Summation");
        mkFunction "Π" "\prod_{}^{}" (Some "Product") ];
    mkCategory "hyperbolic-trig" "HYPERBOLIC TRIG FUNCTIONS"
      [ mkFunction "sinh" "\sinh()" (Some "Hyperbolic sine");
        mkFunction "cosh" "\cosh()" (Some "Hyperbolic cosine");
        mkFunction "tanh" "\tanh()" (Some "Hyperbolic tangent");
        mkFunction "csch" "\text{csch}()" (Some "Hyperbolic cosecant");
        mkFunction "sech" "\text{sech}()" (Some "Hyperbolic secant");
        mkFunction "coth" "\coth()" (Some "Hyperbolic cotangent") ];
    mkCategory "geometry" "GEOMETRY"
      [ mkFunction "polygon" "\text{polygon}()" (Some "Polygon");
        mkFunction "distance" "\text{distance}()" (Some "Distance");
        mkFunction "midpoint" "\text{midpoint}()" (Some "Midpoint") ];
    mkCategory "colors" "CUSTOM COLORS"
      [ mkFunction "rgb" "\text{rgb}()" (Some "RGB color");
        mkFunction "hsv" "\text{hsv}()" (Some "HSV color");
        mkFunction "okhsv" "\text{okhsv}()" (Some "OKHSV color");
        mkFunction "oklab" "\text{oklab}()" (Some "OKLAB color");
        mkFunction "oklch" "\text{oklch}()" (Some "OKLCH color") ];
    mkCategory "sound" "SOUND"
      [ mkFunction "tone" "\text{tone}()" (Some "Generate tone") ];
    mkCategory "number-theory" "NUMBER THEORY"
      [ mkFunction "lcm" "\text{lcm}()" (Some "Least common multiple");
        mkFunction "gcd" "\gcd()" (Some "Greatest common divisor");
        mkFunction "mod" "\mod " (Some "Modulo");
        mkFunction "ceil" "\lceil \rceil" (Some "Ceiling");
        mkFunction "floor" "\lfloor \rfloor" (Some "Floor");
        mkFunction "round" "\text{round}()" (Some "Round");
        mkFunction "sign" "\text{sign}()" (Some "Sign function");
        mkFunction "ⁿ√" "\sqrt[]{}" (Some "Nth root");
        mkFunction "nPr" "P()" (Some "Permutation");
        mkFunction "nCr" "\binom{}{}" (Some "Combination") ]
  ].

(** Every function button of the panel, in rendering order. *)
Definition allFunctions : list FunctionConfig :=
  concat (map functions functionCategories).

End FunctionCatalog.

(* ===================================================================== *)
(** ** MathKeyboard: visibility and the events of a session *)
(* ===================================================================== *)

Module KeyboardSession.
Import React MathKeyboard.

(** [toggleKeyboard]: the updater handed to [setIsVisible] computes the new
    value, tells [onVisibilityChange] (when supplied) and, when the keyboard
    closes, calls [setIsFunctionsOpen(false)].  The result is the state
    after the re-render and the values [onVisibilityChange] received. *)
Definition toggleKeyboard (onVisibilityChange : bool) (st : KeyboardState)
    : KeyboardState * list bool :=
  let newValue := negb (isVisible st) in
  (mkState newValue (keyboardMode st) (isShiftActive st)
           (if negb newValue then false else isFunctionsOpen st),
   if onVisibilityChange then [newValue] else []).

(** [handleClickOutside], the document [mousedown] listener.
    [insideKeyboard] is [keyboardRef.current?.contains(target)] and
    [onMathInput] is [target.closest('.mathex-input')]. *)
Definition handleClickOutside (onVisibilityChange : bool)
    (insideKeyboard onMathInput : bool) (st : KeyboardState)
    : KeyboardState * list bool :=
  if negb (isVisible st) then (st, [])
  else if insideKeyboard then (st, [])
  else if onMathInput then (st, [])
  else (mkState false (keyboardMode st) (isShiftActive st) false,
        if onVisibilityChange then [false] else []).

(** What the user can do to the keyboard. *)
Inductive KeyboardEvent : Type :=
| ClickButton (button : ButtonConfig)
| ClickFunction (latex : string)
| ClickToggle
| MouseDownOutside (insideKeyboard onMathInput : bool).

Record Outcome : Type := mkOutcome {
  state : KeyboardState;
  (** commands handed to [mathContext.insertAtCursor] *)
  sent : list string;
  (** values handed to [onVisibilityChange] *)
  notified : list bool;
}.

Definition handle (mathContext onVisibilityChange : bool) (ev : KeyboardEvent)
    (st : KeyboardState) : Outcome :=
  match ev with
  | ClickButton button =>
      let '(st', out) := click mathContext st button in mkOutcome st' out []
  | ClickFunction latex =>
      let out := handleFunctionClick mathContext latex in
      mkOutcome (commit out st) (dispatched out) []
  | ClickToggle =>
      let '(st', seen) := toggleKeyboard onVisibilityChange st in mkOutcome st' [] seen
  | MouseDownOutside insideKeyboard onMathInput =>
      let '(st', seen) := handleClickOutside onVisibilityChange insideKeyboard onMathInput st in
      mkOutcome st' [] seen
  end.

(** An event the rendered keyboard can produce in state [st]: only a button
    on screen can be clicked, and the functions panel is part of the visible
    keyboard. *)
Definition possible (ev : KeyboardEvent) (st : KeyboardState) : Prop :=
  match ev with
  | ClickButton button => button ∈ renderedButtons st
  | ClickFunction _ => isVisible st = true
  | ClickToggle | MouseDownOutside _ _ => True
  end.

(** The shift flag is only on in the letters keyboard, and the functions
    panel is only open in the visible numbers keyboard. *)
Definition consistent (st : KeyboardState) : Prop :=
  (isShiftActive st = true → keyboardMode st = Abc)
  ∧ (isFunctionsOpen st = true → isVisible st = true ∧ keyboardMode st = Default).

Fixpoint session (mathContext onVisibilityChange : bool) (evs : list KeyboardEvent)
    (st : KeyboardState) : Outcome :=
  match evs with
  | [] => mkOutcome st [] []
  | ev :: rest =>
      let o1 := handle mathContext onVisibilityChange ev st in
      let o2 := session mathContext onVisibilityChange rest (state o1) in
      mkOutcome (state o2) (sent o1 ++ sent o2) (notified o1 ++ notified o2)
  end.

Fixpoint possibleSession (mathContext onVisibilityChange : bool)
    (evs : list KeyboardEvent) (st : KeyboardState) : Prop :=
  match evs with
  | [] => True
  | ev :: rest =>
      possible ev st
      ∧ possibleSession mathContext onVisibilityChange rest
          (state (handle mathContext onVisibilityChange ev st))
  end.

End KeyboardSession.

(* ===================================================================== *)
(** ** MathInput: unmount, and an input under a provider *)
(* ===================================================================== *)

Module InputLifecycle.
Import MathInput.

#[global] Instance Thrown_eq_dec : EqDecision Thrown.
Proof. solve_decision. Defined.
#[global] Instance Event_eq_dec : EqDecision Event.
Proof. solve_decision. Defined.

(** What the cleanup of the first effect does to the field and its element. *)
Inductive Teardown : Type :=
| RemoveEventListener (type : string)
| FieldRevert.

Record Unmounted : Type := mkUnmounted {
  teardown : list Teardown;
  (** [mathFieldRef.current !== null] after the cleanups *)
  mathFieldAfter : bool;
  unmountEvents : list Event;
}.

(** The cleanups of unmount, in the order of their effects.  The first
    effect returns its cleanup only when the field was built; the
    registration effect returns its cleanup only when a provider was there
    at mount. *)
Definition unmount (env : Env) (props : MathInputProps) (m : Mounted) : Unmounted :=
  {| teardown :=
       if mathFieldRef m
       then [RemoveEventListener "focusin"; RemoveEventListener "focusout"; FieldRevert]
       else [];
     mathFieldAfter := false;
     unmountEvents :=
       (if mathFieldRef m then log "MathInput" "cleanup - removing listeners" else [])
       ++ (if mathContext env then
             log "MathInput" "Unregistering input from provider (unmount)"
             ++ [UnregisterInput (inputId env props)]
           else []) |}.


(** The calls an input makes on the context, as operations of the provider.
    The callback an input registers is its own [handleKeyboardInsertion];
    it is named by the id of the input. *)
Definition providerOps (out : list Event) : list (MathProvider.Op string) :=
  omap (λ e,
    match e with
    | RegisterInput id => Some (MathProvider.RegisterInput id id)
    | UnregisterInput id => Some (MathProvider.UnregisterInput id)
    | SetActiveInput id => Some (MathProvider.SetActiveInput id)
    | _ => None
    end) out.

(** The ids handed to [registerInput]. *)
Definition registrations (out : list Event) : list string :=
  omap (λ e, match e with RegisterInput id => Some id | _ => None end) out.

(** The LaTeX a list of field calls writes into the field. *)
Definition written (out : list Event) : list string :=
  omap (λ e, match e with FieldWrite latex => Some latex | _ => None end) out.

End InputLifecycle.

(* ===================================================================== *)
(** * Properties of the provider *)
(* ===================================================================== *)

Section ProviderFacts.
Import React MathProvider.
Context {Cb : Type}.
Implicit Types (p q : Provider Cb) (ops pre post : list (Op Cb)) (op : Op Cb).
Implicit Types (id a : string) (cb h : Cb).

Lemma processQueue_snoc {S : Type} (c : S) (queue : list (SetStateAction S)) act :
  processQueue c (queue ++ [act]) = applyAction (processQueue c queue) act.
Proof. unfold processQueue. by rewrite foldl_app. Qed.

Lemma run_app ops1 ops2 p :
  run (ops1 ++ ops2) p =
    (let '(p1, out1) := run ops1 p in
     let '(p2, out2) := run ops2 p1 in (p2, out1 ++ out2)).
Proof.
  revert p. induction ops1 as [|op ops1 IH]; intros p; simpl.
  - by destruct (run ops2 p).
  - destruct (step op p) as [p1 out1]. rewrite IH.
    destruct (run ops1 p1) as [p2 out2], (run ops2 p2) as [p3 out3].
    by rewrite (assoc_L (++)).
Qed.

Lemma run_app_state ops1 ops2 p :
  (run (ops1 ++ ops2) p).1 = (run ops2 (run ops1 p).1).1.
Proof.
  rewrite run_app. destruct (run ops1 p) as [p1 out1]; simpl.
  by destruct (run ops2 p1).
Qed.

Lemma run_snoc_state ops op p :
  (run (ops ++ [op]) p).1 = (step op (run ops p).1).1.
Proof.
  rewrite run_app_state. simpl. by destruct (step op _).
Qed.

Lemma run_cons_state op ops p :
  (run (op :: ops) p).1 = (run ops (step op p).1).1.
Proof. simpl. destruct (step op p) as [p1 o1]; simpl. by destruct (run ops p1). Qed.

(** [insertAtCursor] writes no ref and calls no setter. *)
Lemma insertAtCursor_state latex p : (insertAtCursor latex p).1 = p.
Proof.
  unfold insertAtCursor. destruct (falsy _); [done|]. by destruct (_ ≫= _).
Qed.

(** *** the next committed active id, operation by operation *)

Lemma next_step op p :
  nextActiveInputId (step op p).1 =
    match op with
    | SetActiveInput id => Some id
    | UnregisterInput id => clearIfCurrent id (nextActiveInputId p)
    | _ => nextActiveInputId p
    end.
Proof.
  destruct op; simpl; rewrite ?insertAtCursor_state; try done.
  - unfold nextActiveInputId; simpl. by rewrite processQueue_snoc.
  - unfold nextActiveInputId; simpl. by rewrite processQueue_snoc.
Qed.

Lemma render_commits p :
  activeInputId (render p).1 = nextActiveInputId p
  ∧ activeInputIdRef (render p).1 = nextActiveInputId p
  ∧ activeInputIdQueue (render p).1 = []
  ∧ inputCallbacksRef (render p).1 = inputCallbacksRef p.
Proof. done. Qed.

Lemma clearIfCurrent_Some id c a :
  clearIfCurrent id c = Some a ↔ c = Some a ∧ a ≠ id.
Proof.
  unfold clearIfCurrent. case_decide as Hc.
  - split; [done|]. intros [-> Hne]. by injection Hc as ->.
  - split; [|by intros [-> _]]. intros ->. split; [done|]. by intros ->.
Qed.

Lemma next_keepsActive post a p :
  Forall (keepsActive a) post →
  nextActiveInputId p = Some a →
  nextActiveInputId (run post p).1 = Some a.
Proof.
  revert p. induction post as [|op post IH]; intros p Hq Hp; [done|].
  apply Forall_cons in Hq as [[Hset Hun] Hq].
  rewrite run_cons_state. apply IH; [done|]. rewrite next_step.
  destruct op; try done.
  - apply clearIfCurrent_Some. split; [done|]. congruence.
  - by destruct (Hset id).
Qed.

(** From any provider: after [setActiveInput a] and operations that keep
    it, the next committed active id is [a]. *)
Lemma next_after_activation pre post a p :
  Forall (keepsActive a) post →
  nextActiveInputId (run (pre ++ SetActiveInput a :: post) p).1 = Some a.
Proof.
  intros Hq. rewrite run_app_state, run_cons_state.
  apply next_keepsActive; [done|]. by rewrite next_step.
Qed.

(** From the first render: the next committed active id is [a] exactly
    when [a] is the last input activated and was not unregistered since. *)
Lemma next_after_run ops a :
  nextActiveInputId (run ops (@initial Cb)).1 = Some a ↔
  ∃ pre post, ops = pre ++ SetActiveInput a :: post ∧ Forall (keepsActive a) post.
Proof.
  split; [|intros (pre & post & -> & Hq); by apply next_after_activation].
  revert a. induction ops as [|op ops IH] using rev_ind; intros a; [done|].
  rewrite run_snoc_state, next_step.
  assert (Hkeep : keepsActive a op → nextActiveInputId (run ops initial).1 = Some a →
    ∃ pre post, ops ++ [op] = pre ++ SetActiveInput a :: post ∧ Forall (keepsActive a) post).
  { intros Hop (pre & post & -> & Hq)%IH. exists pre, (post ++ [op]). split.
    - by rewrite <-(assoc_L (++)).
    - apply Forall_app. split; [done|]. by apply Forall_singleton. }
  destruct op as [id cb|id|id|latex|]; try (apply Hkeep; by split).
  - intros [Hn Hne]%clearIfCurrent_Some. apply Hkeep; [|done].
    split; [done|]. congruence.
  - intros [= <-]. exists ops, []. by split.
Qed.

(** *** the registry, operation by operation *)

Lemma callbacks_step op p id :
  inputCallbacksRef (step op p).1 !! id =
    match op with
    | RegisterInput id' cb => if decide (id' = id) then Some cb else inputCallbacksRef p !! id
    | UnregisterInput id' => if decide (id' = id) then None else inputCallbacksRef p !! id
    | _ => inputCallbacksRef p !! id
    end.
Proof.
  destruct op; simpl; try done.
  - by rewrite lookup_insert.
  - by rewrite lookup_delete.
  - by rewrite insertAtCursor_state.
Qed.

Lemma callbacks_keepsEntry post id p :
  Forall (keepsEntry id) post →
  inputCallbacksRef (run post p).1 !! id = inputCallbacksRef p !! id.
Proof.
  revert p. induction post as [|op post IH]; intros p Hq; [done|].
  apply Forall_cons in Hq as [[Hreg Hun] Hq].
  rewrite run_cons_state, IH, callbacks_step by done.
  destruct op as [id' cb|id'| | |]; try done.
  - case_decide; [subst; by destruct (Hreg cb)|done].
  - case_decide; [subst; done|done].
Qed.

Lemma callbacks_after_registration pre post id h p :
  Forall (keepsEntry id) post →
  inputCallbacksRef (run (pre ++ RegisterInput id h :: post) p).1 !! id = Some h.
Proof.
  intros Hq. rewrite run_app_state, run_cons_state, callbacks_keepsEntry by done.
  rewrite callbacks_step. by rewrite decide_True.
Qed.

Lemma callbacks_after_run ops id h :
  inputCallbacksRef (run ops (@initial Cb)).1 !! id = Some h ↔
  ∃ pre post, ops = pre ++ RegisterInput id h :: post ∧ Forall (keepsEntry id) post.
Proof.
  split; [|intros (pre & post & -> & Hq); by apply callbacks_after_registration].
  revert h. induction ops as [|op ops IH] using rev_ind; intros h; [done|].
  rewrite run_snoc_state, callbacks_step.
  assert (Hkeep : keepsEntry id op → inputCallbacksRef (run ops initial).1 !! id = Some h →
    ∃ pre post, ops ++ [op] = pre ++ RegisterInput id h :: post ∧ Forall (keepsEntry id) post).
  { intros Hop (pre & post & -> & Hq)%IH. exists pre, (post ++ [op]). split.
    - by rewrite <-(assoc_L (++)).
    - apply Forall_app. split; [done|]. by apply Forall_singleton. }
  destruct op as [id' cb|id'|id'|latex|]; try (apply Hkeep; by split).
  - case_decide as Hid.
    + intros [= <-]. subst id'. exists ops, []. by split.
    + apply Hkeep. split; congruence.
  - case_decide as Hid; [done|]. apply Hkeep. split; congruence.
Qed.

End ProviderFacts.

Section ProviderClaims.
Import React MathProvider.
Context {Cb : Type}.
Implicit Types (p q : Provider Cb) (ops pre post : list (Op Cb)) (op : Op Cb).
Implicit Types (id a : string) (cb h : Cb).

Lemma calls_app (out1 out2 : list (Event Cb)) :
  calls (out1 ++ out2) = calls out1 ++ calls out2.
Proof. apply omap_app. Qed.

(** While no input was ever activated, nothing is called. *)
Lemma calls_without_activation ops p :
  Forall (λ op, ∀ id, op ≠ SetActiveInput id) ops →
  activeInputIdRef p = None →
  nextActiveInputId p = None →
  calls (run ops p).2 = [].
Proof.
  revert p. induction ops as [|op ops IH]; intros p Hops Href Hnext; [done|].
  apply Forall_cons in Hops as [Hop Hops]. simpl.
  destruct (step op p) as [p1 out1] eqn:Hstep.
  destruct (run ops p1) as [p2 out2] eqn:Hrun. simpl.
  assert (Hp1 : p1 = (step op p).1) by by rewrite Hstep.
  assert (Hout2 : out2 = (run ops p1).2) by by rewrite Hrun.
  rewrite calls_app, Hout2, IH; [| done | |].
  - rewrite app_nil_r. destruct op; simpl in Hstep; try by injection Hstep as <- <-.
    unfold insertAtCursor in Hstep. rewrite Href in Hstep. simpl in Hstep.
    by injection Hstep as <- <-.
  - subst p1. destruct op; simpl; rewrite ?insertAtCursor_state; try done.
  - subst p1. rewrite next_step. destruct op; try done.
    + by rewrite Hnext.
    + by destruct (Hop id).
Qed.

Lemma provider_eq p q :
  activeInputId p = activeInputId q →
  activeInputIdQueue p = activeInputIdQueue q →
  activeInputIdRef p = activeInputIdRef q →
  inputCallbacksRef p = inputCallbacksRef q →
  p = q.
Proof. destruct p, q; simpl; by intros -> -> -> ->. Qed.

(** If every activation names a registered input, the next committed
    active id is in the registry. *)
Lemma next_registered ops p :
  (∀ a, nextActiveInputId p = Some a → is_Some (inputCallbacksRef p !! a)) →
  activatesRegistered ops p →
  ∀ a, nextActiveInputId (run ops p).1 = Some a →
       is_Some (inputCallbacksRef (run ops p).1 !! a).
Proof.
  revert p. induction ops as [|op ops IH]; intros p Hinv Hops; [done|].
  destruct Hops as [Hop Hops]. intros a. rewrite run_cons_state.
  apply IH; [|done]. clear a. intros a. rewrite next_step, callbacks_step.
  destruct op as [id cb|id|id|latex|]; try apply Hinv.
  - case_decide; [done|apply Hinv].
  - intros [Hn Hne]%clearIfCurrent_Some. rewrite decide_False by done. by apply Hinv.
  - by intros [= <-].
Qed.

(** C1 (as amended).  Let [setActiveInput A] be the last activation, with
    [A] not the empty string and not unregistered since, and let the
    provider have rendered after it.  If [A] is registered with handler
    [hA], then [insertAtCursor cmd] calls [hA] with [cmd] exactly once,
    calls no other handler, prints nothing and leaves the provider as it
    was. *)
Theorem dispatch_routes_to_active_after_render p pre post A hA cmd :
  A ≠ "" →
  Forall (keepsActive A) post →
  inputCallbacksRef (run (pre ++ SetActiveInput A :: post ++ [Render]) p).1 !! A = Some hA →
  insertAtCursor cmd (run (pre ++ SetActiveInput A :: post ++ [Render]) p).1
  = ((run (pre ++ SetActiveInput A :: post ++ [Render]) p).1, [Call hA cmd]).
Proof.
  intros HA Hpost.
  assert (Href : activeInputIdRef (run (pre ++ SetActiveInput A :: post ++ [Render]) p).1 = Some A).
  { change (pre ++ SetActiveInput A :: post ++ [Render])
      with (pre ++ (SetActiveInput A :: post) ++ [Render]).
    rewrite (assoc_L (++)), run_snoc_state. simpl.
    fold (nextActiveInputId (run (pre ++ SetActiveInput A :: post) p).1).
    by apply next_after_activation. }
  intros Hcb. unfold insertAtCursor. rewrite Href. simpl.
  apply String.eqb_neq in HA. rewrite HA, Hcb. done.
Qed.

(** C2 (as amended).  Run any operations from the first render and let
    React render.  The [activeInputId] committed by that render is [Some a]
    exactly when [setActiveInput a] is the most recent activation and [a]
    was not unregistered after it.  Unregistering the active id makes the
    next render commit [None]; unregistering any other id makes it commit
    the same active id as before. *)
Theorem active_id_after_sequence ops a :
  (activeInputId (render (run ops (@initial Cb)).1).1 = Some a ↔
     ∃ pre post, ops = pre ++ SetActiveInput a :: post ∧ Forall (keepsActive a) post)
  ∧ (∀ p id,
       (activeInputId (render p).1 = Some id →
          activeInputId (render (unregisterInput id p).1).1 = None)
       ∧ (activeInputId (render p).1 ≠ Some id →
          activeInputId (render (unregisterInput id p).1).1 = activeInputId (render p).1)).
Proof.
  split; [apply next_after_run|].
  intros p id. change (activeInputId (render p).1) with (nextActiveInputId p).
  change (activeInputId (render (unregisterInput id p).1).1)
    with (nextActiveInputId (step (UnregisterInput id) p).1).
  rewrite next_step. unfold clearIfCurrent. split; intros H.
  - by rewrite decide_True.
  - by rewrite decide_False.
Qed.

(** C3.  After any operations from the first render, the registry binds
    [id] to [h] exactly when [registerInput id h] occurs and no later
    operation registers or unregisters [id].  Registering or unregistering
    another id leaves the entry of [id] as it is, and unregistering an
    absent id leaves the registry as it is (and the whole provider, unless
    that id is the one about to be committed as active). *)
Theorem registry_after_sequence ops id :
  (∀ h, inputCallbacksRef (run ops (@initial Cb)).1 !! id = Some h ↔
     ∃ pre post, ops = pre ++ RegisterInput id h :: post ∧ Forall (keepsEntry id) post)
  ∧ (∀ p id' cb, id' ≠ id →
       inputCallbacksRef (registerInput id' cb p).1 !! id = inputCallbacksRef p !! id
       ∧ inputCallbacksRef (unregisterInput id' p).1 !! id = inputCallbacksRef p !! id)
  ∧ (∀ p, inputCallbacksRef p !! id = None →
       inputCallbacksRef (unregisterInput id p).1 = inputCallbacksRef p
       ∧ (nextActiveInputId p ≠ Some id →
          (render (unregisterInput id p).1).1 = (render p).1)).
Proof.
  split; [intros h; apply callbacks_after_run|]. split.
  - intros p id' cb Hne. simpl. by rewrite lookup_insert_ne, lookup_delete_ne.
  - intros p Hnone. split; [simpl; by apply delete_id|].
    intros Hne.
    assert (Hnext : nextActiveInputId (step (UnregisterInput id) p).1 = nextActiveInputId p).
    { rewrite next_step. unfold clearIfCurrent. by rewrite decide_False. }
    apply provider_eq; simpl; try done. by apply delete_id.
Qed.

(** C4 (as amended).  [insertAtCursor] never changes the provider.  With
    no active id in the ref (or the empty string) it calls nothing and
    prints the one warning.  With an active id that has no entry in the
    registry it calls nothing and prints nothing: its diagnostic goes to
    the debug log, which is off.  And as long as no input was activated,
    no sequence of operations calls a handler. *)
Theorem insertAtCursor_miss_drops_command latex p :
  (insertAtCursor latex p).1 = p
  ∧ (falsy (activeInputIdRef p) = true →
       (insertAtCursor latex p).2 = [ConsoleWarn "No active input to insert LaTeX into"])
  ∧ (∀ id, activeInputIdRef p = Some id → id ≠ "" → inputCallbacksRef p !! id = None →
       (insertAtCursor latex p).2 = [])
  ∧ (∀ ops, Forall (λ op, ∀ id, op ≠ SetActiveInput id) ops →
       calls (run ops (@initial Cb)).2 = []).
Proof.
  split; [apply insertAtCursor_state|]. split; [|split].
  - intros Hf. unfold insertAtCursor. by rewrite Hf.
  - intros id Href Hid Hnone. unfold insertAtCursor. rewrite Href. simpl.
    apply String.eqb_neq in Hid. by rewrite Hid, Hnone.
  - intros ops Hops. by apply calls_without_activation.
Qed.

(** C5 (as amended).  If every [setActiveInput] names an input that is in
    the registry when it is called, then after any operations from the
    first render and a render, the committed [activeInputId] and the ref
    are [None] or a key of the registry. *)
Theorem active_id_registered_when_activations_are ops a :
  activatesRegistered ops (@initial Cb) →
  activeInputId (render (run ops initial).1).1 = Some a →
  activeInputIdRef (render (run ops initial).1).1 = Some a
  ∧ is_Some (inputCallbacksRef (render (run ops initial).1).1 !! a).
Proof.
  intros Hops Hact. split; [done|].
  change (is_Some (inputCallbacksRef (run ops initial).1 !! a)).
  by apply (next_registered ops initial).
Qed.

(** C7.  [registerInput id cb] calls and prints nothing, leaves the
    active id (state, queue and ref) alone, binds [id] to [cb], leaves
    every other entry alone, and overwrites: after an earlier registration of [id] only the last
    callback remains, and registering the same callback twice is the same
    as once. *)
Theorem registerInput_touches_only_its_entry id cb p :
  (registerInput id cb p).2 = []
  ∧ activeInputId (registerInput id cb p).1 = activeInputId p
  ∧ activeInputIdQueue (registerInput id cb p).1 = activeInputIdQueue p
  ∧ activeInputIdRef (registerInput id cb p).1 = activeInputIdRef p
  ∧ inputCallbacksRef (registerInput id cb p).1 !! id = Some cb
  ∧ (∀ id', id' ≠ id →
       inputCallbacksRef (registerInput id cb p).1 !! id' = inputCallbacksRef p !! id')
  ∧ (∀ cb0, (registerInput id cb (registerInput id cb0 p).1).1 = (registerInput id cb p).1)
  ∧ (registerInput id cb (registerInput id cb p).1).1 = (registerInput id cb p).1.
Proof.
  repeat split; simpl.
  - apply lookup_insert_eq.
  - intros id' Hne. by apply lookup_insert_ne.
  - intros cb0. apply provider_eq; simpl; try done. apply insert_insert_eq.
  - apply provider_eq; simpl; try done. apply insert_insert_eq.
Qed.

End ProviderClaims.

Section ProviderExamples.
Import React MathProvider.

(** C1, counterexample.  Inputs ["a"] and ["b"] are registered with the
    callbacks [1] and [2], and ["b"] was active at the last render.
    [setActiveInput "a"] followed at once by [insertAtCursor "x"] calls the
    callback of ["b"], not that of ["a"]: the ref still holds the id of the
    last render. *)
Lemma dispatch_in_same_task_uses_stale_active_id :
  calls (run [RegisterInput "a" 1; RegisterInput "b" 2; SetActiveInput "b"; Render;
              SetActiveInput "a"; InsertAtCursor "x"] initial).2 = [(2, "x")]
  ∧ calls (run [RegisterInput "a" 1; RegisterInput "b" 2; SetActiveInput "b"; Render;
                SetActiveInput "a"; InsertAtCursor "x"] initial).2 ≠ [(1, "x")].
Proof. vm_compute. split; [reflexivity|discriminate]. Qed.

(** Before any render has seen an activation, the same two calls only
    print the warning. *)
Example dispatch_in_same_task_first_focus :
  (run [RegisterInput "a" 1; RegisterInput "b" 2;
        SetActiveInput "a"; InsertAtCursor "x"] initial).2
  = [ConsoleWarn "No active input to insert LaTeX into"].
Proof. vm_compute. reflexivity. Qed.

(** The empty string is a falsy id: it is never routed to, even when it
    is registered, active and rendered. *)
Example empty_id_is_never_routed :
  (run [RegisterInput "" 1; SetActiveInput ""; Render; InsertAtCursor "x"] initial).2
  = [ConsoleWarn "No active input to insert LaTeX into"].
Proof. vm_compute. reflexivity. Qed.

Lemma dispatch_routes_to_active_after_render_witness :
  "a" ≠ ""
  ∧ Forall (keepsActive "a") ([] : list (Op nat))
  ∧ inputCallbacksRef
      (run ([RegisterInput "a" 1; RegisterInput "b" 2] ++ SetActiveInput "a" :: [] ++ [Render])
           initial).1 !! "a" = Some 1
  ∧ insertAtCursor "x"
      (run ([RegisterInput "a" 1; RegisterInput "b" 2] ++ SetActiveInput "a" :: [] ++ [Render])
           initial).1
    = ((run ([RegisterInput "a" 1; RegisterInput "b" 2] ++ SetActiveInput "a" :: [] ++ [Render])
            initial).1,
       [Call 1 "x"]).
Proof.
  split; [discriminate|]. split; [apply Forall_nil_2|]. split; [reflexivity|].
  apply (dispatch_routes_to_active_after_render initial
           [RegisterInput "a" 1; RegisterInput "b" 2] [] "a" 1 "x").
  - discriminate.
  - apply Forall_nil_2.
  - reflexivity.
Defined.

(** C4, counterexample.  Input ["a"] is active and unmounts; a click that
    arrives before the next render finds the id in the ref and no entry in
    the registry.  The command is dropped and nothing at all is printed. *)
Lemma missing_handler_prints_nothing :
  activeInputIdRef
    (run [RegisterInput "a" 1; SetActiveInput "a"; Render; UnregisterInput "a"] initial).1
  = Some "a"
  ∧ inputCallbacksRef
      (run [RegisterInput "a" 1; SetActiveInput "a"; Render; UnregisterInput "a"] initial).1
      !! "a" = None
  ∧ (insertAtCursor "x"
      (run [RegisterInput "a" 1; SetActiveInput "a"; Render; UnregisterInput "a"] initial).1).2
    = [].
Proof. vm_compute. done. Qed.

(** C2, counterexample.  Right after the calls, with no render in between,
    [activeInputId] is not what the calls say.  After ["b"] was rendered as
    active, [setActiveInput "a"] leaves the active id at ["b"], which is not
    the most recent activation; and after ["a"] was rendered as active,
    [unregisterInput "a"] leaves the active id at ["a"], in the state and
    in the ref, although it was unregistered since. *)
Lemma active_id_is_stale_until_render :
  activeInputId (run [SetActiveInput "b"; Render; SetActiveInput "a"] (@initial nat)).1
  = Some "b"
  ∧ ¬ (∃ pre post : list (Op nat),
         [SetActiveInput "b"; Render; SetActiveInput "a"] = pre ++ SetActiveInput "b" :: post
         ∧ Forall (keepsActive "b") post)
  ∧ activeInputId
      (run [RegisterInput "a" 1; SetActiveInput "a"; Render; UnregisterInput "a"] initial).1
    = Some "a"
  ∧ activeInputIdRef
      (run [RegisterInput "a" 1; SetActiveInput "a"; Render; UnregisterInput "a"] initial).1
    = Some "a".
Proof.
  split; [reflexivity|]. split; [|split; reflexivity].
  intros (pre & post & Heq & Hpost).
  destruct pre as [|op1 pre]; simpl in Heq.
  - injection Heq as <-.
    apply Forall_cons in Hpost as [_ Hpost].
    apply Forall_cons in Hpost as [[Hset _] _].
    by apply (Hset "a").
  - injection Heq as _ Heq. destruct pre as [|op2 pre]; simpl in Heq; [discriminate|].
    injection Heq as _ Heq. destruct pre as [|op3 pre]; simpl in Heq; [discriminate|].
    injection Heq as _ Heq. by destruct pre.
Qed.

(** C5, counterexample.  [setActiveInput] does not look at the registry:
    activating ["a"] in an empty registry commits ["a"] as the active id,
    in the state and in the ref. *)
Lemma active_id_without_registration :
  activeInputId (run [SetActiveInput "a"; Render] (@initial nat)).1 = Some "a"
  ∧ activeInputIdRef (run [SetActiveInput "a"; Render] (@initial nat)).1 = Some "a"
  ∧ inputCallbacksRef (run [SetActiveInput "a"; Render] (@initial nat)).1 !! "a" = None.
Proof. vm_compute. done. Qed.

Lemma active_id_registered_when_activations_are_witness :
  activatesRegistered [RegisterInput "a" 1; SetActiveInput "a"; RegisterInput "b" 2] initial
  ∧ activeInputId
      (render (run [RegisterInput "a" 1; SetActiveInput "a"; RegisterInput "b" 2] initial).1).1
    = Some "a"
  ∧ activeInputIdRef
      (render (run [RegisterInput "a" 1; SetActiveInput "a"; RegisterInput "b" 2] initial).1).1
    = Some "a"
  ∧ is_Some (inputCallbacksRef
      (render (run [RegisterInput "a" 1; SetActiveInput "a"; RegisterInput "b" 2] initial).1).1
      !! "a").
Proof.
  assert (H1 : activatesRegistered
                 [RegisterInput "a" 1; SetActiveInput "a"; RegisterInput "b" 2] initial).
  { simpl. repeat split; try exact I. exists 1. reflexivity. }
  split; [exact H1|]. split; [reflexivity|].
  apply (active_id_registered_when_activations_are
           [RegisterInput "a" 1; SetActiveInput "a"; RegisterInput "b" 2] "a" H1).
  reflexivity.
Defined.

End ProviderExamples.

(* ===================================================================== *)
(** * Properties of the keyboard *)
(* ===================================================================== *)

Section KeyboardFacts.
Import React MathKeyboard.
Implicit Types (st : KeyboardState) (button : ButtonConfig) (ctx : bool).

Lemma allStates_complete st : st ∈ allStates.
Proof.
  destruct st as [[] [] [] []]; apply list_elem_of_In; simpl; tauto.
Qed.

(** A decidable property of a click holds for every button of the tables
    in every state as soon as it holds on the finite table of cases. *)
Lemma table_ind (P : bool → KeyboardState → ButtonConfig → Prop)
    `{∀ ctx st button, Decision (P ctx st button)} :
  forallb (λ button,
    forallb (λ st,
      forallb (λ ctx, bool_decide (P ctx st button)) [true; false]) allStates) allButtons
  = true →
  ∀ ctx st button, button ∈ allButtons → P ctx st button.
Proof.
  intros Hall ctx st button Hb.
  rewrite forallb_forall in Hall. apply list_elem_of_In, Hall in Hb.
  rewrite forallb_forall in Hb.
  specialize (Hb st ltac:(apply list_elem_of_In, allStates_complete)).
  rewrite forallb_forall in Hb.
  eapply bool_decide_eq_true_1, Hb. destruct ctx; simpl; auto.
Qed.

End KeyboardFacts.

Ltac by_table :=
  lazymatch goal with
  | |- ∀ ctx st button, button ∈ MathKeyboard.allButtons → @?P ctx st button =>
      apply (table_ind P); vm_compute; reflexivity
  end.

Section KeyboardClaims.
Import React MathKeyboard.
Implicit Types (st : KeyboardState) (button : ButtonConfig) (ctx : bool).

(** Whatever is on screen comes from the tables. *)
Lemma renderedButtons_in_tables st button :
  button ∈ renderedButtons st → button ∈ allButtons.
Proof.
  unfold renderedButtons, allButtons.
  destruct (isVisible st); [|by intros ?%elem_of_nil].
  destruct (keyboardMode st); [|destruct (isShiftActive st)];
    repeat (rewrite concat_app || rewrite elem_of_app); tauto.
Qed.

(** C8 (as amended).  For every button of the tables: the two mode
    switches, shift and the functions toggle only write keyboard state and
    send nothing to the provider; SPEAK does nothing at all; every other
    button sends exactly one command when a provider is present (its
    [latex], or SUBSCRIPT_BLOCK / SUPERSCRIPT_BLOCK for the script
    buttons) and none when there is no provider. *)
Theorem button_dispatch_table ctx st button :
  button ∈ allButtons →
  (latex button = "ABC_MODE" →
     click ctx st button = (mkState (isVisible st) Abc (isShiftActive st) false, []))
  ∧ (latex button = "123_MODE" →
     click ctx st button = (mkState (isVisible st) Default false (isFunctionsOpen st), []))
  ∧ (latex button = "SHIFT" →
     click ctx st button
     = (mkState (isVisible st) (keyboardMode st) (negb (isShiftActive st)) (isFunctionsOpen st),
        []))
  ∧ (latex button = "FUNCTIONS" →
     click ctx st button
     = (mkState (isVisible st) (keyboardMode st) (isShiftActive st) (negb (isFunctionsOpen st)),
        []))
  ∧ (latex button = "SPEAK" → click ctx st button = (st, []))
  ∧ (latex button ∉ "SPEAK" :: localActions →
     (∃ command, (click true st button).2 = [command])
     ∧ (click false st button).2 = [])
  ∧ (latex button ∉ "SPEAK" :: localActions → dualChar button = None →
     (click true st button).2 =
       [if decide (latex button = "SUBSCRIPT") then "SUBSCRIPT_BLOCK"
        else if decide (latex button = "SUPERSCRIPT") then "SUPERSCRIPT_BLOCK"
        else latex button]).
Proof.
  intros Hb.
  assert (Hall : ∀ ctx st button, button ∈ allButtons →
    (λ ctx st button,
    (latex button = "ABC_MODE" →
       click ctx st button = (mkState (isVisible st) Abc (isShiftActive st) false, []))
    ∧ (latex button = "123_MODE" →
       click ctx st button = (mkState (isVisible st) Default false (isFunctionsOpen st), []))
    ∧ (latex button = "SHIFT" →
       click ctx st button
       = (mkState (isVisible st) (keyboardMode st) (negb (isShiftActive st))
                  (isFunctionsOpen st), []))
    ∧ (latex button = "FUNCTIONS" →
       click ctx st button
       = (mkState (isVisible st) (keyboardMode st) (isShiftActive st)
                  (negb (isFunctionsOpen st)), []))
    ∧ (latex button = "SPEAK" → click ctx st button = (st, []))
    ∧ (latex button ∉ "SPEAK" :: localActions →
       length (click true st button).2 = 1
       ∧ (click false st button).2 = [])
    ∧ (latex button ∉ "SPEAK" :: localActions → dualChar button = None →
       (click true st button).2 =
         [if decide (latex button = "SUBSCRIPT") then "SUBSCRIPT_BLOCK"
          else if decide (latex button = "SUPERSCRIPT") then "SUPERSCRIPT_BLOCK"
          else latex button])) ctx st button).
  { by_table. }
  destruct (Hall ctx st button Hb)
    as (H1 & H2 & H3 & H4 & H5 & H6 & H7).
  repeat split; try done.
  - destruct (H6 H) as [Hlen _].
    destruct (click true st button).2 as [|command [|? ?]]; try done. by exists command.
  - by destruct (H6 H).
Qed.

(** C9.  For every button of the tables that has a [dualChar], a click
    under a provider sends the primary LaTeX when shift is off and the
    secondary LaTeX when shift is on, and leaves the keyboard state as it
    is.  The button [! %] of the letters keyboard sends ["!"] unshifted
    and ["%"] shifted. *)
Theorem dual_button_dispatches_variant_by_shift st button dc :
  button ∈ allButtons →
  dualChar button = Some dc →
  click true st button
  = (st, [if isShiftActive st then secondaryLatex dc else primaryLatex dc])
  ∧ (∃ exclaim, exclaim ∈ concat abcKeyboardRows
       ∧ dualChar exclaim = Some (mkDualChar "!" "!" "%" "%")
       ∧ ∀ st', click true st' exclaim = (st', [if isShiftActive st' then "%" else "!"])).
Proof.
  intros Hb Hdc.
  assert (Hall : ∀ ctx st button, button ∈ allButtons →
    is_Some (dualChar button) →
    click true st button
    = (st, [if isShiftActive st
            then secondaryLatex (default (mkDualChar "" "" "" "") (dualChar button))
            else primaryLatex (default (mkDualChar "" "" "" "") (dualChar button))])).
  { by_table. }
  split.
  - specialize (Hall true st button Hb). rewrite Hdc in Hall. apply Hall. by eexists.
  - exists (mkButton "! %" "DUAL_EXCLAIM_PERCENT" TySymbol (Some White) None None
                     (Some (mkDualChar "!" "!" "%" "%"))).
    split; [apply list_elem_of_In; simpl; tauto|]. split; [done|].
    intros st'. apply (Hall true st'); [|by eexists].
    apply list_elem_of_In. vm_compute. tauto.
Qed.

(** C10.  For every button of the tables: a click on a letter while shift
    is on leaves shift off.  A click on a dual-mode or non-letter button
    leaves the shift flag as it was, unless the button is SHIFT, which
    flips it, or the switch back to the numbers keyboard, which clears it
    with the mode.  No button but SHIFT ever turns shift on. *)
Theorem shift_resets_after_letter ctx st button :
  button ∈ allButtons →
  (type button = TyLetter → isShiftActive st = true →
     isShiftActive (click ctx st button).1 = false)
  ∧ (type button ≠ TyLetter ∨ is_Some (dualChar button) →
     latex button ≠ "SHIFT" → latex button ≠ "123_MODE" →
     isShiftActive (click ctx st button).1 = isShiftActive st)
  ∧ (latex button = "SHIFT" →
     isShiftActive (click ctx st button).1 = negb (isShiftActive st))
  ∧ (latex button = "123_MODE" → isShiftActive (click ctx st button).1 = false)
  ∧ (latex button ≠ "SHIFT" → isShiftActive st = false →
     isShiftActive (click ctx st button).1 = false).
Proof.
  revert ctx st button. by_table.
Qed.

End KeyboardClaims.

Section KeyboardExamples.
Import React MathKeyboard.

(** C8, counterexample.  SPEAK is a button of the numbers keyboard and is
    none of the mode, shift and panel toggles, yet a click on it under a
    provider dispatches nothing. *)
Lemma speak_button_is_not_dispatched :
  mkButton "🔊" "SPEAK" TyAction (Some GrayLight) None None None ∈ concat defaultLeftSection
  ∧ ("SPEAK" ∉ localActions)
  ∧ click true (initial true) (mkButton "🔊" "SPEAK" TyAction (Some GrayLight) None None None)
    = (initial true, []).
Proof.
  split; [apply list_elem_of_In; simpl; tauto|]. split; [|reflexivity].
  intros H%list_elem_of_In. simpl in H. intuition discriminate.
Qed.

Lemma button_dispatch_table_witness :
  mkButton "⌫" "BACKSPACE" TyAction (Some GrayLight) (Some ExtraWide) None None ∈ allButtons
  ∧ (click true (initial true)
       (mkButton "⌫" "BACKSPACE" TyAction (Some GrayLight) (Some ExtraWide) None None)).2
    = ["BACKSPACE"].
Proof.
  assert (Hb : mkButton "⌫" "BACKSPACE" TyAction (Some GrayLight) (Some ExtraWide) None None
               ∈ allButtons).
  { apply list_elem_of_In. vm_compute. tauto. }
  split; [exact Hb|].
  destruct (button_dispatch_table true (initial true) _ Hb) as (_ & _ & _ & _ & _ & _ & Hsend).
  apply Hsend; [|reflexivity].
  intros H%list_elem_of_In. simpl in H. intuition discriminate.
Defined.

Lemma dual_button_dispatches_variant_by_shift_witness :
  mkButton "! %" "DUAL_EXCLAIM_PERCENT" TySymbol (Some White) None None
           (Some (mkDualChar "!" "!" "%" "%")) ∈ allButtons
  ∧ (click true (mkState true Abc false false)
       (mkButton "! %" "DUAL_EXCLAIM_PERCENT" TySymbol (Some White) None None
                 (Some (mkDualChar "!" "!" "%" "%")))).2 = ["!"]
  ∧ (click true (mkState true Abc true false)
       (mkButton "! %" "DUAL_EXCLAIM_PERCENT" TySymbol (Some White) None None
                 (Some (mkDualChar "!" "!" "%" "%")))).2 = ["%"].
Proof.
  assert (Hb : mkButton "! %" "DUAL_EXCLAIM_PERCENT" TySymbol (Some White) None None
                        (Some (mkDualChar "!" "!" "%" "%")) ∈ allButtons).
  { apply list_elem_of_In. vm_compute. tauto. }
  split; [exact Hb|]. split.
  - destruct (dual_button_dispatches_variant_by_shift (mkState true Abc false false) _
                (mkDualChar "!" "!" "%" "%") Hb eq_refl) as [-> _]. reflexivity.
  - destruct (dual_button_dispatches_variant_by_shift (mkState true Abc true false) _
                (mkDualChar "!" "!" "%" "%") Hb eq_refl) as [-> _]. reflexivity.
Defined.

Lemma shift_resets_after_letter_witness :
  mkButton "Q" "Q" TyLetter (Some White) None None None ∈ allButtons
  ∧ isShiftActive
      (click true (mkState true Abc true false)
         (mkButton "Q" "Q" TyLetter (Some White) None None None)).1 = false.
Proof.
  assert (Hb : mkButton "Q" "Q" TyLetter (Some White) None None None ∈ allButtons).
  { apply list_elem_of_In. vm_compute. tauto. }
  split; [exact Hb|].
  destruct (shift_resets_after_letter true (mkState true Abc true false) _ Hb) as [Hletter _].
  apply Hletter; reflexivity.
Defined.

(** The shifted letters keyboard is what is on screen while shift is on:
    a click on its [Q] sends ["Q"] and switches shift off again. *)
Example shifted_letter_round :
  (mkButton "Q" "Q" TyLetter (Some White) None None None
     ∈ renderedButtons (mkState true Abc true false))
  ∧ click true (mkState true Abc true false)
      (mkButton "Q" "Q" TyLetter (Some White) None None None)
    = (mkState true Abc false false, ["Q"]).
Proof. split; [apply list_elem_of_In; vm_compute; tauto | reflexivity]. Qed.

End KeyboardExamples.

(* ===================================================================== *)
(** * Properties of the input *)
(* ===================================================================== *)

Section InputClaims.
Import MathInput.

Lemma log_silent component action : log component action = [].
Proof. reflexivity. Qed.

(** C6 (as amended).  When the engine does not come up, no field exists
    and a diagnostic goes to [console.error]; when building the field
    threw, [onError] is called exactly if it was supplied and the thrown
    value is an [Error].  The input is registered with the provider all
    the same (whenever there is a provider), it is never made
    non-interactive, its disabled class follows the [disabled] prop alone,
    and the registered handler ignores every command. *)
Theorem failed_initialization_still_registers env props :
  initializationFails env = true →
  mathFieldRef (mount env props) = false
  ∧ (∃ message, ConsoleError message ∈ events (mount env props))
  ∧ (∀ error, mathQuillLoaded env = true → mathFieldThrows env = Some error →
       (OnError error ∈ events (mount env props)
        ↔ onError props = true ∧ instanceofError error = true))
  ∧ (RegisterInput (inputId env props) ∈ events (mount env props) ↔ mathContext env = true)
  ∧ (SetNonInteractive ∉ events (mount env props))
  ∧ rendersDisabled props = disabled props
  ∧ (∀ insertedLatex,
       handleKeyboardInsertion (mathFieldRef (mount env props)) insertedLatex = []).
Proof.
  intros Hfail.
  assert (Hinit : ∃ out, initializeMathQuill env props = (false, out)
                         ∧ (∃ message, ConsoleError message ∈ out)
                         ∧ (∀ e, e ∈ out → (∃ m, e = ConsoleError m) ∨ (∃ t, e = OnError t))
                         ∧ (∀ error, mathQuillLoaded env = true →
                              mathFieldThrows env = Some error →
                              (OnError error ∈ out
                               ↔ onError props = true ∧ instanceofError error = true))).
  { unfold initializationFails in Hfail. unfold initializeMathQuill.
    destruct (mathQuillLoaded env); simpl in *.
    - destruct (mathFieldThrows env) as [thrown|]; [|done].
      eexists. split; [done|]. split; [|split].
      + eexists. apply list_elem_of_In, in_app_iff. right. by left.
      + intros e [He|He]%list_elem_of_In%in_app_iff.
        * destruct (onError props && instanceofError thrown); [|done].
          destruct He as [<-|[]]. right. by eexists.
        * destruct He as [<-|[]]. left. by eexists.
      + intros error _ [= ->].
        destruct (onError props), (instanceofError error); simpl; split;
          try (intros [? ?]; discriminate); try (intros; by left);
          try (intros [H|[]%elem_of_nil]%elem_of_cons; discriminate); done.
    - eexists. split; [done|]. split; [|split].
      + eexists. by left.
      + intros e [->|[]%elem_of_nil]%elem_of_cons. left. by eexists.
      + done. }
  destruct Hinit as (out & Hinit & Hdiag & Hshape & Herr).
  unfold mount. rewrite Hinit. simpl.
  assert (Hsync : syncControlledValue env props false = []).
  { unfold syncControlledValue. by destruct (value props). }
  rewrite Hsync. unfold updateDisabledState, registerWithProvider. simpl.
  rewrite !log_silent, app_nil_r. simpl.
  split; [done|]. split.
  { destruct Hdiag as [message Hm]. exists message. apply elem_of_app. by left. }
  split.
  { intros error Hl Ht. rewrite <-(Herr error Hl Ht), elem_of_app.
    split; [|by left]. intros [H|H]; [done|].
    destruct (mathContext env); [|by apply elem_of_nil in H].
    by apply list_elem_of_singleton in H. }
  split.
  { rewrite elem_of_app. split.
    - intros [H|H].
      + destruct (Hshape _ H) as [[m Hm]|[t Ht]]; discriminate.
      + destruct (mathContext env); [done|by apply elem_of_nil in H].
    - intros ->. right. by left. }
  split.
  { rewrite elem_of_app. intros [H|H].
    - destruct (Hshape _ H) as [[m Hm]|[t Ht]]; discriminate.
    - destruct (mathContext env); [|by apply elem_of_nil in H].
      by apply list_elem_of_singleton in H. }
  split; [done|]. intros insertedLatex. reflexivity.
Qed.

End InputClaims.

Section InputExamples.
Import MathInput.

(** C6, counterexample.  MathQuill is loaded, building the field throws an
    [Error], a provider and an [onError] callback are present.  The error
    is reported, but the input is registered with the provider and is not
    rendered disabled. *)
Lemma failed_initialization_registers_and_stays_enabled :
  initializationFails (mkEnv true (Some (ErrorObject "boom")) "" "k3x9q0zr1" true) = true
  ∧ events (mount (mkEnv true (Some (ErrorObject "boom")) "" "k3x9q0zr1" true)
                  (mkProps None "" false (Some "eq1") false false false true))
    = [OnError (ErrorObject "boom");
       ConsoleError "Failed to initialize MathQuill:";
       RegisterInput "eq1"]
  ∧ rendersDisabled (mkProps None "" false (Some "eq1") false false false true) = false.
Proof. vm_compute. done. Qed.

(** With MathQuill missing altogether the same input is registered as
    well, and only the console is told. *)
Example missing_mathquill_registers :
  events (mount (mkEnv false None "" "k3x9q0zr1" true)
                (mkProps None "" false (Some "eq1") false false false true))
  = [ConsoleError "MathQuill is not loaded. Make sure to include MathQuill script in your HTML.";
     RegisterInput "eq1"].
Proof. vm_compute. done. Qed.

Lemma failed_initialization_still_registers_witness :
  initializationFails (mkEnv false None "" "k3x9q0zr1" true) = true
  ∧ mathFieldRef (mount (mkEnv false None "" "k3x9q0zr1" true)
                        (mkProps None "" false None false false false true)) = false
  ∧ (RegisterInput "math-input-k3x9q0zr1"
       ∈ events (mount (mkEnv false None "" "k3x9q0zr1" true)
                       (mkProps None "" false None false false false true))).
Proof.
  split; [reflexivity|].
  destruct (failed_initialization_still_registers
              (mkEnv false None "" "k3x9q0zr1" true)
              (mkProps None "" false None false false false true) eq_refl)
    as (Hfield & _ & _ & Hreg & _).
  split; [exact Hfield|]. apply Hreg. reflexivity.
Defined.

End InputExamples.

(* ===================================================================== *)
(** * Further properties of the provider *)
(* ===================================================================== *)

Section ProviderExtras.
Import React MathProvider.
Context {Cb : Type}.
Implicit Types (p q : Provider Cb) (ops pre post : list (Op Cb)) (op : Op Cb).
Implicit Types (id a : string) (cb h : Cb).

Lemma run_snoc_out ops op p :
  (run (ops ++ [op]) p).2 = (run ops p).2 ++ (step op (run ops p).1).2.
Proof.
  rewrite run_app. destruct (run ops p) as [p1 out1]; simpl.
  destruct (step op p1) as [p2 out2]; simpl. by rewrite app_nil_r.
Qed.

Lemma ref_step op p :
  activeInputIdRef (step op p).1 =
    match op with Render => nextActiveInputId p | _ => activeInputIdRef p end.
Proof. destruct op; simpl; rewrite ?insertAtCursor_state; done. Qed.

Lemma state_step op p :
  activeInputId (step op p).1 =
    match op with Render => nextActiveInputId p | _ => activeInputId p end.
Proof. destruct op; simpl; rewrite ?insertAtCursor_state; done. Qed.

(** X1.  The ref that [insertAtCursor] reads always holds the committed
    [activeInputId]: they agree in every state reached from the first
    render, and no operation but a render changes either of them. *)
Theorem ref_mirrors_committed_state ops :
  activeInputIdRef (run ops (@initial Cb)).1 = activeInputId (run ops (@initial Cb)).1
  ∧ (∀ op p, op ≠ Render →
       activeInputId (step op p).1 = activeInputId p
       ∧ activeInputIdRef (step op p).1 = activeInputIdRef p).
Proof.
  split.
  - induction ops as [|op ops IH] using rev_ind; [done|].
    rewrite run_snoc_state, ref_step, state_step. by destruct op.
  - intros op p Hop. rewrite ref_step, state_step. by destruct op.
Qed.

(** The id in the ref was activated and rendered at some point. *)
Lemma ref_was_activated ops a :
  activeInputIdRef (run ops (@initial Cb)).1 = Some a →
  SetActiveInput a ∈ ops ∧ Render ∈ ops.
Proof.
  induction ops as [|op ops IH] using rev_ind; [done|].
  rewrite run_snoc_state, ref_step. rewrite !elem_of_app, !list_elem_of_singleton.
  destruct op; try (intros [??]%IH; by auto).
  intros (pre & post & -> & _)%next_after_run. split; [|by right].
  left. apply elem_of_app. right. by left.
Qed.

Lemma calls_step op p cb latex :
  (cb, latex) ∈ calls (step op p).2 →
  ∃ id, op = InsertAtCursor latex ∧ id ≠ ""
        ∧ activeInputIdRef p = Some id ∧ inputCallbacksRef p !! id = Some cb.
Proof.
  destruct op as [| | |latex'|]; simpl; try by intros ?%elem_of_nil.
  unfold insertAtCursor. destruct (activeInputIdRef p) as [id|] eqn:Href; simpl.
  - destruct (String.eqb_spec id "") as [->|Hid]; [by intros ?%elem_of_nil|].
    destruct (inputCallbacksRef p !! id) as [cb'|] eqn:Hcb; simpl.
    + intros [= -> ->]%list_elem_of_singleton. by exists id.
    + by intros ?%elem_of_nil.
  - by intros ?%elem_of_nil.
Qed.

(** X2.  A callback is only ever called for a dispatch, and then it is a
    callback that was registered before that dispatch, under a non-empty id
    that was activated and rendered before it. *)
Theorem calls_were_registered_and_activated ops cb latex :
  (cb, latex) ∈ calls (run ops (@initial Cb)).2 →
  ∃ id pre post,
    ops = pre ++ InsertAtCursor latex :: post
    ∧ id ≠ ""
    ∧ RegisterInput id cb ∈ pre
    ∧ SetActiveInput id ∈ pre
    ∧ Render ∈ pre.
Proof.
  induction ops as [|op ops IH] using rev_ind; [by intros ?%elem_of_nil|].
  rewrite run_snoc_out, calls_app, elem_of_app. intros [Hold|Hnew].
  - destruct (IH Hold) as (id & pre & post & -> & Hrest).
    exists id, pre, (post ++ [op]). split; [|done]. by rewrite <-(assoc_L (++)).
  - apply calls_step in Hnew as (id & -> & Hid & Href & Hcb).
    exists id, ops, []. split; [done|]. split; [done|].
    apply callbacks_after_run in Hcb as (pre & post & -> & _).
    apply ref_was_activated in Href as [Hact Hrender].
    split; [|done]. apply elem_of_app. right. by left.
Qed.

(** A dispatch calls one callback at most. *)
Lemma insertAtCursor_calls_at_most_once latex p :
  length (calls (insertAtCursor latex p).2) ≤ 1.
Proof.
  unfold insertAtCursor. destruct (falsy _); [simpl; lia|].
  destruct (_ ≫= _); simpl; lia.
Qed.

Lemma render_rendered p : (render (render p).1).1 = (render p).1.
Proof. done. Qed.


(** X4.  Registering an absent id and unregistering it again gives back the
    registry; after the next render the whole provider is as if nothing had
    happened, unless that id was about to become active, in which case no
    input is active. *)
Theorem register_unregister_round_trip p id cb :
  inputCallbacksRef p !! id = None →
  inputCallbacksRef (run [RegisterInput id cb; UnregisterInput id] p).1 = inputCallbacksRef p
  ∧ (nextActiveInputId p ≠ Some id →
       (run [RegisterInput id cb; UnregisterInput id; Render] p).1 = (render p).1)
  ∧ (nextActiveInputId p = Some id →
       activeInputId (run [RegisterInput id cb; UnregisterInput id; Render] p).1 = None).
Proof.
  intros Hnone.
  assert (Hnext : nextActiveInputId (run [RegisterInput id cb; UnregisterInput id] p).1
                  = clearIfCurrent id (nextActiveInputId p)).
  { change (run [RegisterInput id cb; UnregisterInput id] p).1
      with (step (UnregisterInput id) (step (RegisterInput id cb) p).1).1.
    by rewrite !next_step. }
  assert (Hreg : inputCallbacksRef (run [RegisterInput id cb; UnregisterInput id] p).1
                 = inputCallbacksRef p).
  { simpl. by apply delete_insert_id. }
  split; [done|].
  change (run [RegisterInput id cb; UnregisterInput id; Render] p).1
    with (render (run [RegisterInput id cb; UnregisterInput id] p).1).1.
  split; intros Hact.
  - apply provider_eq; try done.
    + change (nextActiveInputId (run [RegisterInput id cb; UnregisterInput id] p).1
              = nextActiveInputId p).
      rewrite Hnext. unfold clearIfCurrent. by rewrite decide_False.
    + change (nextActiveInputId (run [RegisterInput id cb; UnregisterInput id] p).1
              = nextActiveInputId p).
      rewrite Hnext. unfold clearIfCurrent. by rewrite decide_False.
  - change (nextActiveInputId (run [RegisterInput id cb; UnregisterInput id] p).1 = None).
    rewrite Hnext. unfold clearIfCurrent. by rewrite decide_True.
Qed.

Lemma clearIfCurrent_comm id1 id2 c :
  clearIfCurrent id1 (clearIfCurrent id2 c) = clearIfCurrent id2 (clearIfCurrent id1 c).
Proof. unfold clearIfCurrent. repeat case_decide; congruence. Qed.

(** X5.  Registrations and unregistrations of different ids commute: two
    registrations, or a registration and an unregistration, give the same
    provider in either order; two unregistrations give the same provider
    after the next render. *)
Theorem operations_on_different_ids_commute p id1 id2 cb1 cb2 :
  id1 ≠ id2 →
  (run [RegisterInput id1 cb1; RegisterInput id2 cb2] p).1
  = (run [RegisterInput id2 cb2; RegisterInput id1 cb1] p).1
  ∧ inputCallbacksRef (run [RegisterInput id1 cb1; UnregisterInput id2] p).1
    = inputCallbacksRef (run [UnregisterInput id2; RegisterInput id1 cb1] p).1
  ∧ (render (run [RegisterInput id1 cb1; UnregisterInput id2] p).1).1
    = (render (run [UnregisterInput id2; RegisterInput id1 cb1] p).1).1
  ∧ (render (run [UnregisterInput id1; UnregisterInput id2] p).1).1
    = (render (run [UnregisterInput id2; UnregisterInput id1] p).1).1.
Proof.
  intros Hne. split; [|split; [|split]].
  - apply provider_eq; simpl; try done. by apply insert_insert_ne.
  - simpl. by rewrite delete_insert_ne.
  - apply provider_eq; simpl; try done. by rewrite delete_insert_ne.
  - assert (Hq : processQueue (activeInputId p)
                   ((activeInputIdQueue p ++ [Updater (clearIfCurrent id1)])
                    ++ [Updater (clearIfCurrent id2)])
                 = processQueue (activeInputId p)
                     ((activeInputIdQueue p ++ [Updater (clearIfCurrent id2)])
                      ++ [Updater (clearIfCurrent id1)])).
    { rewrite !processQueue_snoc. simpl. apply clearIfCurrent_comm. }
    apply provider_eq; simpl; try done. apply delete_delete.
Qed.

(** X6.  When the input that is active (or about to be) unregisters, then
    after the next render a dispatch calls nothing and prints the "no active
    input" warning, whatever else is registered. *)
Theorem unregistering_active_input_stops_routing p id latex :
  nextActiveInputId p = Some id →
  insertAtCursor latex (render (unregisterInput id p).1).1
  = ((render (unregisterInput id p).1).1,
     [ConsoleWarn "No active input to insert LaTeX into"]).
Proof.
  intros Hact.
  assert (Href : activeInputIdRef (render (unregisterInput id p).1).1 = None).
  { change (nextActiveInputId (step (UnregisterInput id) p).1 = None).
    rewrite next_step, Hact. unfold clearIfCurrent. by rewrite decide_True. }
  unfold insertAtCursor. by rewrite Href.
Qed.

End ProviderExtras.

(* ===================================================================== *)
(** * Further properties of the input *)
(* ===================================================================== *)

Section InputExtras.
Import MathProvider MathInput InputLifecycle.

(** X7.  The id an input uses is never the empty string, so the provider
    never mistakes it for "no active input"; a non-empty [id] prop is used
    as it is, and otherwise the id is generated with the prefix
    [math-input-]. *)
Theorem inputId_is_never_empty env props :
  inputId env props ≠ ""
  ∧ MathProvider.falsy (Some (inputId env props)) = false
  ∧ (∀ s, id props = Some s → s ≠ "" → inputId env props = s)
  ∧ (id props = None ∨ id props = Some "" →
       inputId env props = "math-input-" +:+ randomSuffix env).
Proof.
  assert (Hne : inputId env props ≠ "").
  { unfold inputId. destruct (id props) as [s|]; [|done].
    destruct (String.eqb_spec s ""); done. }
  split; [done|]. split; [by apply String.eqb_neq|]. split.
  - intros s Hs Hs'. unfold inputId. rewrite Hs.
    apply String.eqb_neq in Hs'. by rewrite Hs'.
  - intros [H|H]; unfold inputId; by rewrite H.
Qed.

Lemma registrations_app (out1 out2 : list Event) :
  registrations (out1 ++ out2) = registrations out1 ++ registrations out2.
Proof. apply omap_app. Qed.

Lemma providerOps_app (out1 out2 : list Event) :
  providerOps (out1 ++ out2) = providerOps out1 ++ providerOps out2.
Proof. apply omap_app. Qed.

(** The first effect, the controlled-value effect and the disabled effect
    make no call on the context. *)
Lemma field_effects_leave_context_alone env props field :
  providerOps (initializeMathQuill env props).2 = []
  ∧ providerOps (syncControlledValue env props field) = []
  ∧ providerOps (updateDisabledState props field) = []
  ∧ registrations (initializeMathQuill env props).2 = []
  ∧ registrations (syncControlledValue env props field) = []
  ∧ registrations (updateDisabledState props field) = [].
Proof.
  unfold initializeMathQuill, syncControlledValue, updateDisabledState.
  destruct (mathQuillLoaded env), (mathFieldThrows env) as [[]|], (onError props),
    (autoFocus props), (value props), field, (disabled props), (readOnly props);
    simpl; repeat case_match; done.
Qed.

Lemma mount_events env props :
  events (mount env props)
  = (initializeMathQuill env props).2
    ++ syncControlledValue env props (initializeMathQuill env props).1
    ++ registerWithProvider env props
    ++ updateDisabledState props (initializeMathQuill env props).1.
Proof. unfold mount. by destruct (initializeMathQuill env props). Qed.

(** X8.  In each of the three outcomes of the first effect that [Env]
    describes ([window.MathQuill] missing, [MathField(...)] throwing inside
    the [try], or the field built), and whatever the props, the input calls
    [registerInput] exactly once when it sits under a provider, with its own
    id, and never when there is no provider: the registration effect does
    not look at the outcome of the first one.  A throw of [getInterface(2)],
    which is called outside the [try], is not among these outcomes. *)
Theorem mount_registers_exactly_once env props :
  registrations (events (mount env props))
  = (if mathContext env then [inputId env props] else []).
Proof.
  rewrite mount_events, !registrations_app.
  destruct (field_effects_leave_context_alone env props (initializeMathQuill env props).1)
    as (_ & _ & _ & -> & -> & ->).
  unfold registerWithProvider. by destruct (mathContext env).
Qed.

Lemma providerOps_mount env props :
  providerOps (events (mount env props))
  = (if mathContext env
     then [MathProvider.RegisterInput (inputId env props) (inputId env props)] else []).
Proof.
  rewrite mount_events, !providerOps_app.
  destruct (field_effects_leave_context_alone env props (initializeMathQuill env props).1)
    as (-> & -> & -> & _).
  unfold registerWithProvider. by destruct (mathContext env).
Qed.

Lemma providerOps_unmount env props m :
  providerOps (unmountEvents (unmount env props m))
  = (if mathContext env then [MathProvider.UnregisterInput (inputId env props)] else []).
Proof. simpl. destruct (mathFieldRef m), (mathContext env); done. Qed.

(** X9.  The life of an input under a provider.  Right after mount its id
    is bound in the registry.  After unmount and a render, whatever the
    provider went through while the input was mounted (focus changes,
    dispatches, renders, other inputs coming and going), its id is no
    longer in the registry and is not the active id, in the state or in the
    ref, and a dispatch that calls a callback finds it under another id. *)
Theorem unmounted_input_is_not_routed env props
    (p : MathProvider.Provider string) (during : list (MathProvider.Op string)) latex :
  mathContext env = true →
  inputCallbacksRef (MathProvider.run (providerOps (events (mount env props))) p).1
    !! inputId env props = Some (inputId env props)
  ∧ inputCallbacksRef
      (MathProvider.run
         (providerOps (events (mount env props)) ++ during
          ++ providerOps (unmountEvents (unmount env props (mount env props)))
          ++ [MathProvider.Render]) p).1
      !! inputId env props = None
  ∧ activeInputId
      (MathProvider.run
         (providerOps (events (mount env props)) ++ during
          ++ providerOps (unmountEvents (unmount env props (mount env props)))
          ++ [MathProvider.Render]) p).1
    ≠ Some (inputId env props)
  ∧ activeInputIdRef
      (MathProvider.run
         (providerOps (events (mount env props)) ++ during
          ++ providerOps (unmountEvents (unmount env props (mount env props)))
          ++ [MathProvider.Render]) p).1
    ≠ Some (inputId env props)
  ∧ (∀ h,
       (MathProvider.insertAtCursor latex
          (MathProvider.run
             (providerOps (events (mount env props)) ++ during
              ++ providerOps (unmountEvents (unmount env props (mount env props)))
              ++ [MathProvider.Render]) p).1).2
       = [MathProvider.Call h latex] →
       ∃ other, other ≠ inputId env props
         ∧ inputCallbacksRef
             (MathProvider.run
                (providerOps (events (mount env props)) ++ during
                 ++ providerOps (unmountEvents (unmount env props (mount env props)))
                 ++ [MathProvider.Render]) p).1 !! other = Some h).
Proof.
  intros Hctx. rewrite providerOps_mount, providerOps_unmount, Hctx.
  set (me := inputId env props).
  split; [simpl; apply lookup_insert_eq|].
  set (before := [MathProvider.RegisterInput me me] ++ during).
  assert (Hops : [MathProvider.RegisterInput me me] ++ during
                 ++ [MathProvider.UnregisterInput me] ++ [MathProvider.Render]
                 = (before ++ [MathProvider.UnregisterInput me]) ++ [MathProvider.Render]).
  { unfold before. by rewrite <-!(assoc_L (++)). }
  rewrite Hops. clear Hops.
  set (q := (MathProvider.run (before ++ [MathProvider.UnregisterInput me]) p).1).
  assert (Hreg : inputCallbacksRef q !! me = None).
  { unfold q. rewrite run_snoc_state, callbacks_step. by rewrite decide_True. }
  assert (Hnext : MathProvider.nextActiveInputId q ≠ Some me).
  { unfold q. rewrite run_snoc_state, next_step.
    intros [_ Hne]%clearIfCurrent_Some. done. }
  rewrite run_snoc_state. fold q.
  change (MathProvider.step MathProvider.Render q) with (MathProvider.render q).
  destruct (render_commits q) as (Hstate & Href & _ & Hcbs).
  rewrite Hstate, Href, Hcbs.
  split; [done|]. split; [done|]. split; [done|].
  intros h. unfold MathProvider.insertAtCursor. rewrite Href, Hcbs.
  destruct (MathProvider.nextActiveInputId q) as [a|] eqn:Ha; simpl; [|by intros [=]].
  destruct (String.eqb_spec a "") as [->|Hempty]; [by intros [=]|].
  destruct (inputCallbacksRef q !! a) as [h'|] eqn:Hh; simpl; [|by intros [=]].
  intros [= ->]. exists a. split; [congruence|done].
Qed.

End InputExtras.

(* ===================================================================== *)
(** * Further properties of the keyboard *)
(* ===================================================================== *)

Section KeyboardExtras.
Import React MathKeyboard KeyboardSession.
Implicit Types (st : KeyboardState) (button : ButtonConfig) (ctx : bool).
Implicit Types (ev : KeyboardEvent) (evs : list KeyboardEvent).


(** Any button at all, from the tables or not: without a provider nothing
    is sent, and the setters are called as with a provider. *)
Lemma click_without_provider st button :
  (click false st button).1 = (click true st button).1
  ∧ (click false st button).2 = [].
Proof.
  unfold click, handleButtonClick, log, DEBUG; simpl.
  destruct (dualChar button) as [dc|]; simpl; repeat case_match; done.
Qed.

(** X10.  The keyboard without a provider: over any session it sends no
    command at all, while its own state and the visibility notifications
    are exactly those of the same session under a provider. *)
Theorem keyboard_without_provider onVisibilityChange evs st :
  sent (session false onVisibilityChange evs st) = []
  ∧ state (session false onVisibilityChange evs st)
    = state (session true onVisibilityChange evs st)
  ∧ notified (session false onVisibilityChange evs st)
    = notified (session true onVisibilityChange evs st).
Proof.
  revert st. induction evs as [|ev evs IH]; intros st; [done|].
  assert (Hev : sent (handle false onVisibilityChange ev st) = []
                ∧ state (handle false onVisibilityChange ev st)
                  = state (handle true onVisibilityChange ev st)
                ∧ notified (handle false onVisibilityChange ev st)
                  = notified (handle true onVisibilityChange ev st)).
  { destruct ev as [button|latex| |inside onInput]; unfold handle.
    - destruct (click_without_provider st button) as [H1 H2].
      destruct (click false st button) as [s1 o1], (click true st button) as [s2 o2].
      simpl in *. by subst.
    - done.
    - by destruct (toggleKeyboard onVisibilityChange st).
    - by destruct (handleClickOutside onVisibilityChange inside onInput st). }
  destruct Hev as (Hsent & Hstate & Hnote). simpl.
  rewrite Hsent, Hstate, Hnote.
  destruct (IH (state (handle true onVisibilityChange ev st))) as (-> & -> & ->). done.
Qed.


Lemma possible_button_in_tables button st :
  possible (ClickButton button) st → button ∈ allButtons.
Proof. apply renderedButtons_in_tables. Qed.

(** One possible event keeps the state consistent. *)
Lemma handle_consistent ctx onVisibilityChange ev st :
  possible ev st → consistent st →
  consistent (state (handle ctx onVisibilityChange ev st)).
Proof.
  destruct ev as [button|latex| |inside onInput]; unfold handle, possible.
  - intros Hon Hst.
    assert (Hall : ∀ ctx st button, button ∈ allButtons →
      button ∈ renderedButtons st →
      (isShiftActive st = true → keyboardMode st = Abc)
      ∧ (isFunctionsOpen st = true → isVisible st = true ∧ keyboardMode st = Default) →
      (isShiftActive (click ctx st button).1 = true → keyboardMode (click ctx st button).1 = Abc)
      ∧ (isFunctionsOpen (click ctx st button).1 = true →
           isVisible (click ctx st button).1 = true
           ∧ keyboardMode (click ctx st button).1 = Default)).
    { by_table. }
    specialize (Hall ctx st button (renderedButtons_in_tables _ _ Hon) Hon Hst).
    by destruct (click ctx st button).
  - intros _ [Hshift _]. unfold handleFunctionClick, log, DEBUG.
    destruct st as [v m s f], ctx; simpl in *; split; done.
  - intros _ [Hshift Hfun]. destruct st as [[] m s []]; simpl in *; split;
      intros;
      first [ done | by apply Hshift | by apply Hfun
            | by destruct (Hfun eq_refl) as [[=] _]
            | by destruct (Hfun eq_refl) as [_ ->] ].
  - intros _ [Hshift Hfun].
    destruct st as [[] m s []], inside, onInput; simpl in *; split;
      intros;
      first [ done | by apply Hshift | by apply Hfun
            | by destruct (Hfun eq_refl) as [[=] _]
            | by destruct (Hfun eq_refl) as [_ ->] ].
Qed.

(** X12.  In every state the keyboard reaches from its initial state by
    events its rendering allows, shift is only on in the letters keyboard,
    and the functions panel is only open while the keyboard is visible and
    shows the numbers keyboard.  In particular a hidden keyboard never has
    an open panel. *)
Theorem keyboard_state_stays_consistent ctx onVisibilityChange defaultVisible evs :
  possibleSession ctx onVisibilityChange evs (initial defaultVisible) →
  (isShiftActive (state (session ctx onVisibilityChange evs (initial defaultVisible))) = true →
     keyboardMode (state (session ctx onVisibilityChange evs (initial defaultVisible))) = Abc)
  ∧ (isFunctionsOpen (state (session ctx onVisibilityChange evs (initial defaultVisible))) = true →
     isVisible (state (session ctx onVisibilityChange evs (initial defaultVisible))) = true
     ∧ keyboardMode (state (session ctx onVisibilityChange evs (initial defaultVisible)))
       = Default).
Proof.
  assert (Hgen : ∀ st, consistent st → possibleSession ctx onVisibilityChange evs st →
                       consistent (state (session ctx onVisibilityChange evs st))).
  { induction evs as [|ev evs IH]; intros st Hst Hevs; [done|].
    destruct Hevs as [Hev Hevs]. simpl. apply IH; [|done]. by apply handle_consistent. }
  intros Hevs. apply Hgen; [|done]. by split.
Qed.



End KeyboardExtras.

(* ===================================================================== *)
(** * From the keyboard to the field *)
(* ===================================================================== *)

Section KeyboardToField.
Import React MathKeyboard InputLifecycle.

(** X14.  What the keyboard sends and what the input does with it agree,
    for every button of the tables.  A command sent by an action button
    (arrows, backspace, enter, subscript, superscript) makes the input call
    the field but never write text into it; the command of any other button
    is written into the field as it is, and the field is focused again. *)
Theorem keyboard_commands_reach_the_field (ctx : bool) (st : KeyboardState)
    (button : ButtonConfig) :
  button ∈ allButtons →
  Forall (λ command,
    (type button = TyAction →
       written (MathInput.handleKeyboardInsertion true command) = []
       ∧ MathInput.handleKeyboardInsertion true command ≠ [])
    ∧ (type button ≠ TyAction →
       MathInput.handleKeyboardInsertion true command
       = [MathInput.FieldWrite command; MathInput.FieldFocus]))
    (click true st button).2.
Proof. revert ctx st button. by_table. Qed.

(** X15.  Every function of the panel, clicked under a provider, sends its
    LaTeX once and closes the panel, leaving visibility, mode and shift as
    they were; none of these LaTeX strings is one of the command words of
    the input, so the input writes it into the field as it is. *)
Theorem catalog_functions_are_written_verbatim (f : FunctionCatalog.FunctionConfig)
    (st : KeyboardState) :
  f ∈ FunctionCatalog.allFunctions →
  dispatched (handleFunctionClick true (FunctionCatalog.latex f)) = [FunctionCatalog.latex f]
  ∧ commit (handleFunctionClick true (FunctionCatalog.latex f)) st
    = mkState (isVisible st) (keyboardMode st) (isShiftActive st) false
  ∧ MathInput.handleKeyboardInsertion true (FunctionCatalog.latex f)
    = [MathInput.FieldWrite (FunctionCatalog.latex f); MathInput.FieldFocus].
Proof.
  intros Hf. split; [done|]. split; [by destruct st|].
  assert (Hall : forallb (λ f, bool_decide
            (MathInput.handleKeyboardInsertion true (FunctionCatalog.latex f)
             = [MathInput.FieldWrite (FunctionCatalog.latex f); MathInput.FieldFocus]))
            FunctionCatalog.allFunctions = true).
  { vm_compute. reflexivity. }
  rewrite forallb_forall in Hall. apply list_elem_of_In, Hall in Hf.
  by apply bool_decide_eq_true in Hf.
Qed.

End KeyboardToField.

(* ===================================================================== *)
(** * Instances of the further properties *)
(* ===================================================================== *)

Section ExtraWitnesses.
Import React MathProvider.

Lemma calls_were_registered_and_activated_witness :
  (1, "x") ∈ calls (run [RegisterInput "a" 1; SetActiveInput "a"; Render;
                         InsertAtCursor "x"] initial).2
  ∧ ∃ id pre post,
      [RegisterInput "a" 1; SetActiveInput "a"; Render; InsertAtCursor "x"]
      = pre ++ InsertAtCursor "x" :: post
      ∧ id ≠ ""
      ∧ RegisterInput id 1 ∈ pre
      ∧ SetActiveInput id ∈ pre
      ∧ Render ∈ pre.
Proof.
  assert (H : (1, "x") ∈ calls (run [RegisterInput "a" 1; SetActiveInput "a"; Render;
                                     InsertAtCursor "x"] initial).2).
  { apply list_elem_of_In. vm_compute. tauto. }
  split; [exact H|].
  exact (calls_were_registered_and_activated
           [RegisterInput "a" 1; SetActiveInput "a"; Render; InsertAtCursor "x"] 1 "x" H).
Defined.


Lemma register_unregister_round_trip_witness :
  inputCallbacksRef (run [RegisterInput "b" 2] (@initial nat)).1 !! "a" = None
  ∧ inputCallbacksRef
      (run [RegisterInput "a" 1; UnregisterInput "a"] (run [RegisterInput "b" 2] initial).1).1
    = inputCallbacksRef (run [RegisterInput "b" 2] (@initial nat)).1.
Proof.
  assert (H : inputCallbacksRef (run [RegisterInput "b" 2] (@initial nat)).1 !! "a" = None).
  { reflexivity. }
  split; [exact H|].
  exact (proj1 (register_unregister_round_trip
                  (run [RegisterInput "b" 2] initial).1 "a" 1 H)).
Defined.

Lemma operations_on_different_ids_commute_witness :
  "a" ≠ "b"
  ∧ (run [RegisterInput "a" 1; RegisterInput "b" 2] initial).1
    = (run [RegisterInput "b" 2; RegisterInput "a" 1] initial).1.
Proof.
  assert (H : "a" ≠ "b") by discriminate.
  split; [exact H|].
  exact (proj1 (operations_on_different_ids_commute initial "a" "b" 1 2 H)).
Defined.

Lemma unregistering_active_input_stops_routing_witness :
  nextActiveInputId (run [RegisterInput "a" 1; RegisterInput "b" 2; SetActiveInput "a"]
                         initial).1 = Some "a"
  ∧ (insertAtCursor "x"
       (render (unregisterInput "a"
          (run [RegisterInput "a" 1; RegisterInput "b" 2; SetActiveInput "a"]
               initial).1).1).1).2
    = [ConsoleWarn "No active input to insert LaTeX into"].
Proof.
  assert (H : nextActiveInputId
                (run [RegisterInput "a" 1; RegisterInput "b" 2; SetActiveInput "a"]
                     initial).1 = Some "a").
  { reflexivity. }
  split; [exact H|].
  rewrite (unregistering_active_input_stops_routing
             (run [RegisterInput "a" 1; RegisterInput "b" 2; SetActiveInput "a"] initial).1
             "a" "x" H).
  reflexivity.
Defined.

End ExtraWitnesses.

Section ExtraWitnessesInput.
Import MathInput InputLifecycle.

Lemma unmounted_input_is_not_routed_witness :
  mathContext (mkEnv true None "x" "k3x9q0zr1" true) = true
  ∧ MathProvider.inputCallbacksRef
      (MathProvider.run
         (providerOps (events (mount (mkEnv true None "x" "k3x9q0zr1" true)
                                     (mkProps None "x" false (Some "eq1") false false false false)))
          ++ [MathProvider.SetActiveInput "eq1"; MathProvider.Render;
              MathProvider.InsertAtCursor "y"]
          ++ providerOps
               (unmountEvents
                  (unmount (mkEnv true None "x" "k3x9q0zr1" true)
                     (mkProps None "x" false (Some "eq1") false false false false)
                     (mount (mkEnv true None "x" "k3x9q0zr1" true)
                        (mkProps None "x" false (Some "eq1") false false false false))))
          ++ [MathProvider.Render]) MathProvider.initial).1
      !! "eq1" = None.
Proof.
  split; [reflexivity|].
  exact (proj1 (proj2 (unmounted_input_is_not_routed
           (mkEnv true None "x" "k3x9q0zr1" true)
           (mkProps None "x" false (Some "eq1") false false false false)
           MathProvider.initial
           [MathProvider.SetActiveInput "eq1"; MathProvider.Render;
            MathProvider.InsertAtCursor "y"]
           "z" eq_refl))).
Defined.

End ExtraWitnessesInput.

Section ExtraWitnessesKeyboard.
Import React MathKeyboard KeyboardSession.

Lemma keyboard_state_stays_consistent_witness :
  possibleSession true true
    [ClickToggle;
     ClickButton (mkButton "functions" "FUNCTIONS" TyAction (Some GrayLight)
                           (Some ExtraWide) None None);
     ClickToggle]
    (initial false)
  ∧ isFunctionsOpen
      (state (session true true
        [ClickToggle;
         ClickButton (mkButton "functions" "FUNCTIONS" TyAction (Some GrayLight)
                               (Some ExtraWide) None None);
         ClickToggle]
        (initial false))) = false.
Proof.
  assert (H : possibleSession true true
    [ClickToggle;
     ClickButton (mkButton "functions" "FUNCTIONS" TyAction (Some GrayLight)
                           (Some ExtraWide) None None);
     ClickToggle]
    (initial false)).
  { simpl. repeat split. apply list_elem_of_In. vm_compute. tauto. }
  split; [exact H|].
  destruct (keyboard_state_stays_consistent true true false _ H) as [_ Hfun].
  destruct (isFunctionsOpen _) eqn:Hopen; [|reflexivity].
  destruct (Hfun eq_refl) as [Hvis _]. vm_compute in Hvis. discriminate.
Defined.


Lemma keyboard_commands_reach_the_field_witness :
  mkButton "√" "\sqrt{}" TyFunction (Some White) None None None ∈ allButtons
  ∧ Forall (λ command,
      (TyFunction = TyAction →
         InputLifecycle.written (MathInput.handleKeyboardInsertion true command) = []
         ∧ MathInput.handleKeyboardInsertion true command ≠ [])
      ∧ (TyFunction ≠ TyAction →
         MathInput.handleKeyboardInsertion true command
         = [MathInput.FieldWrite command; MathInput.FieldFocus]))
      (click true (initial true)
         (mkButton "√" "\sqrt{}" TyFunction (Some White) None None None)).2.
Proof.
  assert (H : mkButton "√" "\sqrt{}" TyFunction (Some White) None None None ∈ allButtons).
  { apply list_elem_of_In. vm_compute. tauto. }
  split; [exact H|].
  exact (keyboard_commands_reach_the_field true (initial true) _ H).
Defined.

Lemma catalog_functions_are_written_verbatim_witness :
  FunctionCatalog.mkFunction "sin" "\sin()" (Some "Sine function")
    ∈ FunctionCatalog.allFunctions
  ∧ MathInput.handleKeyboardInsertion true "\sin()"
    = [MathInput.FieldWrite "\sin()"; MathInput.FieldFocus].
Proof.
  assert (H : FunctionCatalog.mkFunction "sin" "\sin()" (Some "Sine function")
                ∈ FunctionCatalog.allFunctions).
  { apply list_elem_of_In. vm_compute. tauto. }
  split; [exact H|].
  exact (proj2 (proj2 (catalog_functions_are_written_verbatim _ (initial true) H))).
Defined.

End ExtraWitnessesKeyboard.

(* ===================================================================== *)
(** * Typing into the focused input *)
(* ===================================================================== *)

Section Delivery.
Import React MathProvider.
Context {Cb : Type}.
Implicit Types (p q : Provider Cb) (ops pre post : list (Op Cb)).

(** With [a] in the ref and bound to [h], every command of a burst is
    handed to [h], in order. *)
Lemma burst_delivered q a (h : Cb) (commands : list string) :
  activeInputIdRef q = Some a → a ≠ "" → inputCallbacksRef q !! a = Some h →
  (run (InsertAtCursor <$> commands) q).2 = Call h <$> commands.
Proof.
  intros Href Ha Hh. induction commands as [|c commands IH]; [done|].
  rewrite !fmap_cons. simpl.
  destruct (insertAtCursor c q) as [q1 out1] eqn:Hins.
  assert (Hq1 : q1 = q) by (rewrite <-(insertAtCursor_state c q); by rewrite Hins).
  assert (Hout : out1 = [Call h c]).
  { unfold insertAtCursor in Hins. rewrite Href in Hins. simpl in Hins.
    apply String.eqb_neq in Ha. rewrite Ha, Hh in Hins. by injection Hins as _ <-. }
  subst q1 out1.
  destruct (run (InsertAtCursor <$> commands) q) as [q2 out2]. simpl in *. by rewrite IH.
Qed.


(** X16.  Once [A] is the last activated input, not unregistered since, and
    the provider has rendered, a whole burst of commands is delivered to
    the callback registered for [A]: every command exactly once, in the
    order sent, to no other callback, with nothing printed. *)
Theorem burst_of_commands_is_delivered_in_order p pre post A (hA : Cb)
    (commands : list string) :
  A ≠ "" →
  Forall (keepsActive A) post →
  inputCallbacksRef (run (pre ++ SetActiveInput A :: post ++ [Render]) p).1 !! A = Some hA →
  (run (InsertAtCursor <$> commands)
       (run (pre ++ SetActiveInput A :: post ++ [Render]) p).1).2
  = Call hA <$> commands.
Proof.
  intros HA Hpost Hcb. apply (burst_delivered _ A); [|done|done].
  change (pre ++ SetActiveInput A :: post ++ [Render])
    with (pre ++ (SetActiveInput A :: post) ++ [Render]).
  rewrite (assoc_L (++)), run_snoc_state. simpl.
  fold (nextActiveInputId (run (pre ++ SetActiveInput A :: post) p).1).
  by apply next_after_activation.
Qed.

End Delivery.

Section FocusThenType.
Import MathProvider MathInput InputLifecycle.



End FocusThenType.

Section DeliveryWitnesses.
Import React MathProvider.

Lemma burst_of_commands_is_delivered_in_order_witness :
  "a" ≠ ""
  ∧ (run (InsertAtCursor <$> ["x"; "^{2}"; "BACKSPACE"])
         (run ([RegisterInput "a" 1; RegisterInput "b" 2] ++ SetActiveInput "a" :: []
               ++ [Render]) initial).1).2
    = [Call 1 "x"; Call 1 "^{2}"; Call 1 "BACKSPACE"].
Proof.
  assert (H : "a" ≠ "") by discriminate.
  split; [exact H|].
  exact (burst_of_commands_is_delivered_in_order initial
           [RegisterInput "a" 1; RegisterInput "b" 2] [] "a" 1
           ["x"; "^{2}"; "BACKSPACE"] H (Forall_nil_2 _) eq_refl).
Defined.


End DeliveryWitnesses.
